(** * rp_handler: the RunPod worker that drives a local ComfyUI instance

    A shallow embedding of [src/rp_handler.py] together with the properties
    of its job lifecycle: input validation, the availability probe, prompt
    submission, completion polling, output resolution and post-processing.

    Python values are the JSON documents the worker handles.  A [str] is a
    Rocq [string] whose characters stand for code points below 256, a [dict]
    is an association list in insertion order (keys of JSON objects are
    strings), and a [bytes] object is a [list byte].  Every call that leaves
    the process (HTTP, file system, upload, classifier, clock, console) is
    recorded as an event; what the outside world answers is a parameter. *)

From Stdlib Require Import ZArith NArith List String Ascii Bool Lia Arith.
From Stdlib Require Import PrimFloat FloatOps SpecFloat DecimalString.
From Stdlib.Strings Require Import Byte.
Import ListNotations.
Local Open Scope list_scope.
Local Open Scope string_scope.

(** ** Python values *)

Set Warnings "-register-all,-inexact-float".

Inductive value : Type :=
| VNone
| VBool (b : bool)
| VInt (z : Z)
| VFloat (f : float)
| VStr (s : string)
| VList (l : list value)
| VDict (d : list (string * value)).

Definition dict : Type := list (string * value).

(** Exceptions: the class decides which [except] clause catches, the message
    is what [str(e)] renders.  Only subclasses of [Exception] are modelled. *)
Inductive exn_class : Type :=
| KeyError
| TypeError
| AttributeError
| IndexError
| JSONDecodeError
| OtherException (name : string).

Record exn : Type := Exn { exn_cls : exn_class; exn_str : string }.

Definition is_json_decode_error (e : exn) : bool :=
  match exn_cls e with JSONDecodeError => true | _ => false end.

(** ** Strings *)

Module PyStr.

Definition code (c : ascii) : nat := nat_of_ascii c.

(** [str.lower] on one code point below 256: A-Z and the upper-case
    letters of Latin-1 (U+00C0..U+00DE without the multiplication sign). *)
Definition lower_char (c : ascii) : ascii :=
  let n := code c in
  if (((65 <=? n) && (n <=? 90)) || ((192 <=? n) && (n <=? 222) && negb (n =? 215)))%nat
  then ascii_of_nat (n + 32) else c.

Fixpoint lower (s : string) : string :=
  match s with
  | EmptyString => EmptyString
  | String c s' => String (lower_char c) (lower s')
  end.

(** [str.isspace] on one code point below 256. *)
Definition is_space (c : ascii) : bool :=
  let n := code c in
  (((9 <=? n) && (n <=? 13)) || ((28 <=? n) && (n <=? 32)) || (n =? 133) || (n =? 160))%nat.

Fixpoint lstrip (s : string) : string :=
  match s with
  | EmptyString => EmptyString
  | String c s' => if is_space c then lstrip s' else s
  end.

Fixpoint rev_onto (s acc : string) : string :=
  match s with
  | EmptyString => acc
  | String c s' => rev_onto s' (String c acc)
  end.

Definition rev (s : string) : string := rev_onto s EmptyString.

Definition rstrip (s : string) : string := rev (lstrip (rev s)).

(** [str.strip()] with no argument. *)
Definition strip (s : string) : string := rstrip (lstrip s).

(** [sub in s] for two strings. *)
Fixpoint contains (sub s : string) : bool :=
  String.prefix sub s ||
  match s with
  | EmptyString => false
  | String _ s' => contains sub s'
  end.

Fixpoint chars (s : string) : list string :=
  match s with
  | EmptyString => []
  | String c s' => String c EmptyString :: chars s'
  end.

Fixpoint join (sep : string) (l : list string) : string :=
  match l with
  | [] => EmptyString
  | [x] => x
  | x :: rest => x ++ sep ++ join sep rest
  end.

Definition of_nat (n : nat) : string := NilZero.string_of_uint (Nat.to_uint n).
Definition of_Z (z : Z) : string := NilZero.string_of_int (Z.to_int z).

Definition hex_digit (n : nat) : ascii :=
  match String.get n "0123456789abcdef" with Some c => c | None => "0"%char end.

Definition dquote : ascii := "034"%char.

Definition printable (c : ascii) : bool :=
  let n := code c in
  (((32 <=? n) && (n <=? 126)) || ((161 <=? n) && negb (n =? 173)))%nat.

(** One character of [repr] of a [str] quoted with [q]. *)
Definition repr_char (q : ascii) (c : ascii) : string :=
  let n := code c in
  if (n =? 92)%nat then "\\"
  else if Ascii.eqb c q then String "\" (String q EmptyString)
  else if (n =? 9)%nat then "\t"
  else if (n =? 10)%nat then "\n"
  else if (n =? 13)%nat then "\r"
  else if printable c then String c EmptyString
  else String "\" (String "x" (String (hex_digit (n / 16)) (String (hex_digit (n mod 16)) EmptyString))).

Fixpoint repr_body (q : ascii) (s : string) : string :=
  match s with
  | EmptyString => EmptyString
  | String c s' => repr_char q c ++ repr_body q s'
  end.

(** [repr] of a [str]: single quotes, unless the text has a single quote
    and no double quote. *)
Definition repr (s : string) : string :=
  let dq := String dquote EmptyString in
  let q := if contains "'" s && negb (contains dq s) then dquote else "'"%char in
  String q (repr_body q s ++ String q EmptyString).

End PyStr.

(** ** Dictionaries *)

Fixpoint dict_lookup (k : string) (d : dict) : option value :=
  match d with
  | [] => None
  | (k', v) :: d' => if String.eqb k k' then Some v else dict_lookup k d'
  end.

(** [d.get(k)]: the value, or [None] when the key is absent. *)
Definition dict_get (d : dict) (k : string) : value :=
  match dict_lookup k d with
  | Some v => v
  | None => VNone
  end.

(** ** job_prop_to_bool (rp_handler.py, lines 40-56) *)

Definition true_strings : list string := ["true"; "t"; "yes"; "y"; "ok"; "1"].

Definition job_prop_to_bool (job_input : dict) (propname : string) : bool :=
  match dict_get job_input propname with
  | VNone => false
  | VBool b => b
  | VStr s => existsb (String.eqb (PyStr.strip (PyStr.lower s))) true_strings
  | _ => false
  end.

(** ** The Python operations the handler applies to JSON documents *)

(** The pure library functions the worker calls: the [json] codec and the
    rendering of a float by [str] and [repr]. *)
Record Lib : Type := {
  json_loads : string -> exn + value;
  json_dumps : value -> string;
  float_repr : float -> string
}.

Definition type_name (v : value) : string :=
  match v with
  | VNone => "NoneType"
  | VBool _ => "bool"
  | VInt _ => "int"
  | VFloat _ => "float"
  | VStr _ => "str"
  | VList _ => "list"
  | VDict _ => "dict"
  end.

(** Truth value of an object in a condition. *)
Definition truthy (v : value) : bool :=
  match v with
  | VNone => false
  | VBool b => b
  | VInt z => negb (z =? 0)%Z
  | VFloat f => negb (PrimFloat.eqb f PrimFloat.zero)
  | VStr EmptyString => false
  | VStr _ => true
  | VList [] => false
  | VList _ => true
  | VDict [] => false
  | VDict _ => true
  end.

(** An int equals a float when the float holds exactly that integer. *)
Definition float_eq_Z (f : float) (z : Z) : bool :=
  match Prim2SF f with
  | S754_zero _ => (z =? 0)%Z
  | S754_finite sg m e =>
      let mag := Z.pos m in
      let sgn := fun x : Z => if sg then (- x)%Z else x in
      if (0 <=? e)%Z then (z =? sgn (mag * 2 ^ e))%Z
      else ((mag mod 2 ^ (- e) =? 0) && (z =? sgn (mag / 2 ^ (- e))))%Z
  | _ => false
  end.

Definition as_number (v : value) : option (Z + float) :=
  match v with
  | VBool b => Some (inl (Z.b2z b))
  | VInt z => Some (inl z)
  | VFloat f => Some (inr f)
  | _ => None
  end.

Definition num_eq (x y : Z + float) : bool :=
  match x, y with
  | inl a, inl b => (a =? b)%Z
  | inl a, inr g => float_eq_Z g a
  | inr f, inl b => float_eq_Z f b
  | inr f, inr g => PrimFloat.eqb f g
  end.

(** [a == b].  Object identity is not modelled; it differs from [==] only
    on NaN. *)
Fixpoint py_eq (a b : value) {struct a} : bool :=
  match a, b with
  | VNone, VNone => true
  | VStr s, VStr s' => String.eqb s s'
  | VList l, VList l' =>
      (fix items (l l' : list value) {struct l} : bool :=
         match l, l' with
         | [], [] => true
         | x :: r, y :: r' => py_eq x y && items r r'
         | _, _ => false
         end) l l'
  | VDict d, VDict d' =>
      Nat.eqb (List.length d) (List.length d') &&
      (fix entries (d : list (string * value)) : bool :=
         match d with
         | [] => true
         | (k, v) :: r =>
             match dict_lookup k d' with
             | Some v' => py_eq v v'
             | None => false
             end && entries r
         end) d
  | _, _ =>
      match as_number a, as_number b with
      | Some x, Some y => num_eq x y
      | _, _ => false
      end
  end.

(** [v is None] *)
Definition is_none (v : value) : bool :=
  match v with VNone => true | _ => false end.

(** [isinstance(v, dict)] *)
Definition is_dict (v : value) : bool :=
  match v with VDict _ => true | _ => false end.

(** The entries of a value known to be a dict. *)
Definition as_dict (v : value) : dict :=
  match v with VDict d => d | _ => [] end.

Definition hashable (v : value) : bool :=
  match v with
  | VList _ | VDict _ => false
  | _ => true
  end.

(** [seq[i]] on a sequence of length [len]: negative indices count from the
    end. *)
Definition seq_index {A : Type} (l : list A) (i : Z) : option A :=
  let len := Z.of_nat (List.length l) in
  let j := if (i <? 0)%Z then (i + len)%Z else i in
  if ((0 <=? j) && (j <? len))%Z then nth_error l (Z.to_nat j) else None.

Definition as_index (v : value) : option Z :=
  match v with
  | VBool b => Some (Z.b2z b)
  | VInt z => Some z
  | _ => None
  end.

Section Python.

Variable L : Lib.

Fixpoint py_repr (v : value) : string :=
  match v with
  | VNone => "None"
  | VBool true => "True"
  | VBool false => "False"
  | VInt z => PyStr.of_Z z
  | VFloat f => float_repr L f
  | VStr s => PyStr.repr s
  | VList l => "[" ++ PyStr.join ", " (map py_repr l) ++ "]"
  | VDict d =>
      "{" ++ PyStr.join ", "
               (map (fun kv => PyStr.repr (fst kv) ++ ": " ++ py_repr (snd kv)) d)
          ++ "}"
  end.

(** [str(v)], also what an f-string renders for [{v}]. *)
Definition py_str (v : value) : string :=
  match v with
  | VStr s => s
  | _ => py_repr v
  end.

Definition key_error (k : value) : exn := Exn KeyError (py_repr k).

Definition unhashable (k : value) : exn :=
  Exn TypeError ("unhashable type: '" ++ type_name k ++ "'").

(** [x in c]. *)
Definition py_in (x c : value) : exn + bool :=
  match c with
  | VDict d =>
      if hashable x then
        match x with
        | VStr k => inr (match dict_lookup k d with Some _ => true | None => false end)
        | _ => inr false
        end
      else inl (unhashable x)
  | VList l => inr (existsb (fun y => py_eq y x) l)
  | VStr s =>
      match x with
      | VStr sub => inr (PyStr.contains sub s)
      | _ => inl (Exn TypeError ("'in <string>' requires string as left operand, not "
                                   ++ type_name x))
      end
  | _ => inl (Exn TypeError ("argument of type '" ++ type_name c ++ "' is not iterable"))
  end.

(** [c[k]]. *)
Definition py_getitem (c k : value) : exn + value :=
  match c with
  | VDict d =>
      if hashable k then
        match k with
        | VStr key =>
            match dict_lookup key d with
            | Some v => inr v
            | None => inl (key_error k)
            end
        | _ => inl (key_error k)
        end
      else inl (unhashable k)
  | VList l =>
      match as_index k with
      | Some i =>
          match seq_index l i with
          | Some v => inr v
          | None => inl (Exn IndexError "list index out of range")
          end
      | None => inl (Exn TypeError ("list indices must be integers or slices, not "
                                      ++ type_name k))
      end
  | VStr s =>
      match as_index k with
      | Some i =>
          match seq_index (PyStr.chars s) i with
          | Some ch => inr (VStr ch)
          | None => inl (Exn IndexError "string index out of range")
          end
      | None => inl (Exn TypeError "string indices must be integers")
      end
  | _ => inl (Exn TypeError ("'" ++ type_name c ++ "' object is not subscriptable"))
  end.

Definition no_attribute (o : value) (attr : string) : exn :=
  Exn AttributeError ("'" ++ type_name o ++ "' object has no attribute '" ++ attr ++ "'").

(** [o.get(k)] with a string key. *)
Definition py_get (o : value) (k : string) : exn + value :=
  match o with
  | VDict d => inr (dict_get d k)
  | _ => inl (no_attribute o "get")
  end.

(** [o.items()]. *)
Definition py_items (o : value) : exn + list (string * value) :=
  match o with
  | VDict d => inr d
  | _ => inl (no_attribute o "items")
  end.

(** The elements a [for] loop over [o] visits. *)
Definition py_iter (o : value) : exn + list value :=
  match o with
  | VList l => inr l
  | VDict d => inr (map (fun kv => VStr (fst kv)) d)
  | VStr s => inr (map VStr (PyStr.chars s))
  | _ => inl (Exn TypeError ("'" ++ type_name o ++ "' object is not iterable"))
  end.

End Python.

(** ** base64.b64encode *)

Module Base64.

Definition alphabet : string :=
  "ABCDEFGHIJKLMNOPQRSTUVWXYZabcdefghijklmnopqrstuvwxyz0123456789+/".

Definition digit (n : N) : ascii :=
  match String.get (N.to_nat (n mod 64)) alphabet with
  | Some c => c
  | None => "="%char
  end.

Definition pad : ascii := "="%char.

Fixpoint b64encode (bs : list byte) : string :=
  match bs with
  | [] => EmptyString
  | [a] =>
      let n := (Byte.to_N a * 65536)%N in
      String (digit (n / 262144)) (String (digit (n / 4096))
        (String pad (String pad EmptyString)))
  | [a; b] =>
      let n := (Byte.to_N a * 65536 + Byte.to_N b * 256)%N in
      String (digit (n / 262144)) (String (digit (n / 4096))
        (String (digit (n / 64)) (String pad EmptyString)))
  | a :: b :: c :: rest =>
      let n := (Byte.to_N a * 65536 + Byte.to_N b * 256 + Byte.to_N c)%N in
      String (digit (n / 262144)) (String (digit (n / 4096))
        (String (digit (n / 64)) (String (digit n) (b64encode rest))))
  end.

End Base64.

(** ** The outside world *)

(** What [requests.get] gives back: a response with its status code, or a
    [requests.RequestException] (connection refused, timeout, ...). *)
Inductive get_reply : Type :=
| Response (status_code : Z)
| RequestException (msg : string).

(** One event per call that leaves the process, with the answer it got. *)
Inductive event : Type :=
| EvPrint (s : string)
| EvSleep (ms : nat)
| EvRequestsGet (url : string) (r : get_reply)
| EvUrlopen (url : string) (data : option string) (r : exn + string)
| EvPathExists (path : string) (r : bool)
| EvUpload (job_id : value) (path : string) (r : exn + string)
| EvDetect (path : string) (r : exn + value)
| EvReadFile (path : string) (r : exn + list byte).

(** A trace lists events newest first. *)
Definition trace : Type := list event.

(** The collaborators.  Each answer may depend on everything that happened
    before the call. *)
Record World : Type := {
  (* requests.get(url) *)
  requests_get : trace -> string -> get_reply;
  (* urllib.request.urlopen(...).read(): POST when [data] is given *)
  urlopen : trace -> string -> option string -> exn + string;
  (* os.path.exists(path) *)
  path_exists : trace -> string -> bool;
  (* rp_upload.upload_image(job_id, path) *)
  upload_image : trace -> value -> string -> exn + string;
  (* NudeDetector().detect(path) *)
  nude_detect : trace -> string -> exn + value;
  (* open(path, "rb").read() *)
  read_file : trace -> string -> exn + list byte
}.

(** ** Statements and calls

    A block of statements runs against the events so far and yields the
    events it adds, together with how it ended: it ran to its end, it
    executed [return v], or it raised. *)

Inductive outcome (A : Type) : Type :=
| Normal (a : A)
| Returned (v : value)
| Raised (e : exn).
Arguments Normal {A} a.
Arguments Returned {A} v.
Arguments Raised {A} e.

Definition M (A : Type) : Type := trace -> outcome A * trace.

Definition ret {A : Type} (a : A) : M A := fun _ => (Normal a, []).

Definition return_ {A : Type} (v : value) : M A := fun _ => (Returned v, []).

Definition raise {A : Type} (e : exn) : M A := fun _ => (Raised e, []).

Definition bind {A B : Type} (m : M A) (k : A -> M B) : M B :=
  fun past =>
    match m past with
    | (Normal a, new) => let (r, new') := k a (new ++ past)%list in (r, (new' ++ new)%list)
    | (Returned v, new) => (Returned v, new)
    | (Raised e, new) => (Raised e, new)
    end.

Declare Scope py_scope.
Delimit Scope py_scope with py.
Notation "x <- m ;; k" := (bind m (fun x => k))
  (at level 61, m at next level, right associativity) : py_scope.
Notation "m ;; k" := (bind m (fun _ => k))
  (at level 61, right associativity) : py_scope.
Local Open Scope py_scope.

(** [try: body except Exception as e: handler e]. *)
Definition try_except {A : Type} (body : M A) (handler : exn -> M A) : M A :=
  fun past =>
    match body past with
    | (Raised e, new) => let (r, new') := handler e (new ++ past)%list in (r, (new' ++ new)%list)
    | other => other
    end.

(** A function call: the callee's [return v] is the value of the call, and
    a body that runs to its end gives [None]. *)
Definition call (body : M unit) : M value :=
  fun past =>
    match body past with
    | (Normal _, new) => (Normal VNone, new)
    | (Returned v, new) => (Normal v, new)
    | (Raised e, new) => (Raised e, new)
    end.

(** An operation of the interpreter that may raise. *)
Definition lift {A : Type} (r : exn + A) : M A :=
  match r with
  | inl e => raise e
  | inr a => ret a
  end.

Definition emit (e : event) : M unit := fun _ => (Normal tt, [e]).

(** ** Configuration (rp_handler.py, lines 16-27) *)

Definition COMFY_API_AVAILABLE_INTERVAL_MS : nat := 50.
Definition COMFY_API_AVAILABLE_MAX_RETRIES : nat := 500.
Definition COMFY_POLLING_INTERVAL_MS : nat := 250.
Definition COMFY_POLLING_MAX_RETRIES : nat := 999.
Definition COMFY_HOST : string := "127.0.0.1:8188".
Definition COMFY_OUTPUT_PATH : string := "/comfyui/output".

(** [d[k] = v]: replaces the value of an existing key, otherwise appends. *)
Fixpoint dict_set (k : string) (v : value) (d : dict) : dict :=
  match d with
  | [] => [(k, v)]
  | (k', v') :: d' =>
      if String.eqb k k' then (k', v) :: d' else (k', v') :: dict_set k v d'
  end.

(** ** The worker (rp_handler.py) *)

Section Worker.

Variable L : Lib.
Variable W : World.

(** *** Calls to the collaborators *)

Definition do_requests_get (url : string) : M get_reply :=
  fun past => let r := requests_get W past url in (Normal r, [EvRequestsGet url r]).

Definition do_urlopen (url : string) (data : option string) : M string :=
  fun past =>
    let r := urlopen W past url data in
    (match r with inl e => Raised e | inr body => Normal body end,
     [EvUrlopen url data r]).

Definition do_path_exists (path : string) : M bool :=
  fun past => let r := path_exists W past path in (Normal r, [EvPathExists path r]).

Definition do_upload_image (job_id : value) (path : string) : M string :=
  fun past =>
    let r := upload_image W past job_id path in
    (match r with inl e => Raised e | inr url => Normal url end,
     [EvUpload job_id path r]).

Definition do_detect (path : string) : M value :=
  fun past =>
    let r := nude_detect W past path in
    (match r with inl e => Raised e | inr v => Normal v end,
     [EvDetect path r]).

Definition do_read_file (path : string) : M (list byte) :=
  fun past =>
    let r := read_file W past path in
    (match r with inl e => Raised e | inr bs => Normal bs end,
     [EvReadFile path r]).

(** [time.sleep(ms / 1000)]. *)
Definition sleep (ms : nat) : M unit := emit (EvSleep ms).

(** *** log (lines 30-37) *)
Definition log (s : string) : M value :=
  call (emit (EvPrint ("[runpod-worker-comfy] " ++ s))).

(** *** return_error (lines 59-70) *)
Definition error_envelope (error_message : string) : value :=
  VDict [("error", VStr error_message)].

Definition return_error (error_message : string) : M value :=
  call (log error_message ;;
        return_ (error_envelope error_message)).

(** [return return_error(msg)] *)
Definition return_return_error {A : Type} (msg : string) : M A :=
  v <- return_error msg ;; return_ v.

(** *** check_server (lines 73-100)

    [retries] is a number of attempts and [delay] a time in milliseconds:
    natural numbers. *)

(** The body of [for i in range(retries)], with [remaining] iterations
    to go. *)
Fixpoint check_server_loop (url : string) (delay : nat) (remaining : nat) : M unit :=
  match remaining with
  | O => ret tt
  | S k =>
      response <- do_requests_get url ;;
      match response with
      | Response status_code =>
          if (status_code =? 200)%Z
          then log "API is reachable" ;; return_ (VBool true)
          else ret tt
      | RequestException _ => ret tt
      end ;;
      sleep delay ;;
      check_server_loop url delay k
  end.

Definition check_server (url : string) (retries : nat) (delay : nat) : M value :=
  call (check_server_loop url delay retries ;;
        log ("Failed to connect to server at " ++ url ++ " after "
               ++ PyStr.of_nat retries ++ " attempts.") ;;
        return_ (VBool false)).

(** *** queue_workflow (lines 103-115) *)
Definition prompt_url : string := "http://" ++ COMFY_HOST ++ "/prompt".

Definition queue_workflow (workflow : value) : M value :=
  call (let data := json_dumps L (VDict [("prompt", workflow)]) in
        body <- do_urlopen prompt_url (Some data) ;;
        reply <- lift (json_loads L body) ;;
        return_ reply).

(** *** get_history (lines 118-129) *)
Definition history_url (prompt_id : value) : string :=
  "http://" ++ COMFY_HOST ++ "/history/" ++ py_str L prompt_id.

Definition get_history (prompt_id : value) : M value :=
  call (body <- do_urlopen (history_url prompt_id) None ;;
        reply <- lift (json_loads L body) ;;
        return_ reply).

(** *** base64_encode (lines 132-139) *)
Definition base64_encode (img_file : string) : M value :=
  call (log ("scanning base64 for " ++ img_file) ;;
        content <- do_read_file img_file ;;
        return_ (VStr (Base64.b64encode content))).

(** *** detect_nudity (lines 142-148) *)
Definition detect_nudity (img_file : string) : M value :=
  call (log ("scanning nudity for " ++ img_file) ;;
        found <- do_detect img_file ;;
        return_ found).

(** *** handler (lines 151-255) *)

(** Lines 176-181: a workflow given as a string is decoded. *)
Definition decode_workflow (workflow : value) : M value :=
  match workflow with
  | VStr s =>
      match json_loads L s with
      | inr decoded => ret decoded
      | inl e =>
          if is_json_decode_error e
          then return_return_error "Invalid JSON format in 'workflow' data"
          else raise e
      end
  | _ => ret workflow
  end.

(** Lines 164-185: the job's input section and its decoded workflow. *)
Definition validate (job : dict) : M (dict * value) :=
  job_input <- lift (py_getitem L (VDict job) (VStr "input")) ;;
  if is_none job_input
  then return_return_error "no 'input' property found on job data"
  else
    w <- lift (py_get job_input "workflow") ;;
    if is_none w
    then return_return_error "no 'workflow' property found on job data"
    else
      workflow <- lift (py_get job_input "workflow") ;;
      workflow <- decode_workflow workflow ;;
      if is_dict workflow
      then ret (as_dict job_input, workflow)
      else return_return_error
             "'workflow' must be a JSON object or JSON-encoded string".

(** Lines 195-200. *)
Definition submit (workflow : value) : M value :=
  try_except
    (queued <- queue_workflow workflow ;;
     comfy_job_id <- lift (py_getitem L queued (VStr "prompt_id")) ;;
     log ("ComfyUI queued with job ID " ++ py_str L comfy_job_id) ;;
     ret comfy_job_id)
    (fun e => return_return_error ("Error queuing prompt: " ++ exn_str e)).

(** Line 210: [comfy_job_id in history and
    history[comfy_job_id].get("outputs")], as a condition. *)
Definition completed (comfy_job_id history : value) : exn + bool :=
  match py_in comfy_job_id history with
  | inl e => inl e
  | inr false => inr false
  | inr true =>
      match py_getitem L history comfy_job_id with
      | inl e => inl e
      | inr entry =>
          match py_get entry "outputs" with
          | inl e => inl e
          | inr outputs => inr (truthy outputs)
          end
      end
  end.

(** Lines 206-217: the [while] loop with its [else] clause; [remaining]
    is [COMFY_POLLING_MAX_RETRIES - retries]. *)
Fixpoint poll_loop (comfy_job_id : value) (remaining : nat) : M value :=
  match remaining with
  | O => return_return_error "Max retries reached while waiting for image generation"
  | S k =>
      history <- get_history comfy_job_id ;;
      c <- lift (completed comfy_job_id history) ;;
      if c then ret history
      else sleep COMFY_POLLING_INTERVAL_MS ;; poll_loop comfy_job_id k
  end.

(** Lines 203-219. *)
Definition poll (comfy_job_id : value) : M value :=
  log "wait until image generation is complete" ;;
  try_except
    (poll_loop comfy_job_id COMFY_POLLING_MAX_RETRIES)
    (fun e => return_return_error
                ("Error waiting for image generation: " ++ exn_str e)).

(** Lines 228-229: the inner loop over one node's images. *)
Fixpoint scan_images (images : list value) (output_images : value) : exn + value :=
  match images with
  | [] => inr output_images
  | image :: rest =>
      match py_getitem L image (VStr "filename") with
      | inl e => inl e
      | inr filename => scan_images rest filename
      end
  end.

(** Lines 226-229: the loop over [outputs.items()]. *)
Fixpoint scan_nodes (nodes : list (string * value)) (output_images : value)
  : exn + value :=
  match nodes with
  | [] => inr output_images
  | (node_id, node_output) :: rest =>
      match py_in (VStr "images") node_output with
      | inl e => inl e
      | inr false => scan_nodes rest output_images
      | inr true =>
          match py_getitem L node_output (VStr "images") with
          | inl e => inl e
          | inr images =>
              match py_iter images with
              | inl e => inl e
              | inr l =>
                  match scan_images l output_images with
                  | inl e => inl e
                  | inr found => scan_nodes rest found
                  end
              end
          end
      end
  end.

(** Lines 222-229. *)
Definition fetch_output_images (history comfy_job_id : value) : exn + value :=
  match py_getitem L history comfy_job_id with
  | inl e => inl e
  | inr entry =>
      match py_get entry "outputs" with
      | inl e => inl e
      | inr outputs =>
          match py_items outputs with
          | inl e => inl e
          | inr nodes => scan_nodes nodes (VDict [])
          end
      end
  end.

Definition local_image_path (output_images : value) : string :=
  COMFY_OUTPUT_PATH ++ "/" ++ py_str L output_images.

(** Lines 247-248. *)
Definition attach_nsfw (job_input : dict) (path : string) (job_output : dict) : M dict :=
  if job_prop_to_bool job_input "return-nsfw"
  then nsfw <- detect_nudity path ;; ret (dict_set "nsfw" nsfw job_output)
  else ret job_output.

(** Lines 250-251. *)
Definition attach_base64 (job_input : dict) (path : string) (aws_uploaded : bool)
           (job_output : dict) : M dict :=
  if negb aws_uploaded && job_prop_to_bool job_input "return-b64"
  then b64 <- base64_encode path ;; ret (dict_set "base64" b64 job_output)
  else ret job_output.

(** Lines 237-253: the artifact is in the output folder. *)
Definition post_process (job job_input : dict) (path : string) : M unit :=
  log "the image exists in the output folder" ;;
  job_id <- lift (py_getitem L (VDict job) (VStr "id")) ;;
  image_url <- do_upload_image job_id path ;;
  let aws_uploaded := negb (PyStr.contains "simulated_uploaded/" image_url) in
  let job_output := dict_set "url" (VStr image_url) [] in
  job_output <- attach_nsfw job_input path job_output ;;
  job_output <- attach_base64 job_input path aws_uploaded job_output ;;
  return_ (VDict job_output).

(** Lines 231-255. *)
Definition deliver (job job_input : dict) (output_images : value) : M unit :=
  log "image generation is done" ;;
  let path := local_image_path output_images in
  found <- do_path_exists path ;;
  if found
  then post_process job job_input path
  else return_return_error
         ("image does not exist in the specified output folder: " ++ path).

Definition handler (job : dict) : M value :=
  call (validated <- validate job ;;
        let (job_input, workflow) := validated in
        check_server ("http://" ++ COMFY_HOST)
                     COMFY_API_AVAILABLE_MAX_RETRIES
                     COMFY_API_AVAILABLE_INTERVAL_MS ;;
        comfy_job_id <- submit workflow ;;
        history <- poll comfy_job_id ;;
        output_images <- lift (fetch_output_images history comfy_job_id) ;;
        deliver job job_input output_images).

(** Lines 164-219 on their own: the job's input section, the prompt
    identifier and the history in which completion was seen. *)
Definition await_history (job : dict) : M (dict * value * value) :=
  validated <- validate job ;;
  let (job_input, workflow) := validated in
  check_server ("http://" ++ COMFY_HOST)
               COMFY_API_AVAILABLE_MAX_RETRIES
               COMFY_API_AVAILABLE_INTERVAL_MS ;;
  comfy_job_id <- submit workflow ;;
  history <- poll comfy_job_id ;;
  ret (job_input, comfy_job_id, history).

(** What line 196-197 make of the engine's answer to the POST: the
    prompt identifier, or the exception raised on the way to it. *)
Definition prompt_id_of (r : exn + string) : exn + value :=
  match r with
  | inl e => inl e
  | inr body =>
      match json_loads L body with
      | inl e => inl e
      | inr queued => py_getitem L queued (VStr "prompt_id")
      end
  end.

(** What lines 207-210 make of the engine's answer to one history
    request: the decoded history and whether it shows completion. *)
Definition history_of (comfy_job_id : value) (r : exn + string) : exn + (value * bool) :=
  match r with
  | inl e => inl e
  | inr body =>
      match json_loads L body with
      | inl e => inl e
      | inr history =>
          match completed comfy_job_id history with
          | inl e => inl e
          | inr c => inr (history, c)
          end
      end
  end.

(** The body of the POST for [workflow]. *)
Definition post_data (workflow : value) : string :=
  json_dumps L (VDict [("prompt", workflow)]).

(** The events of line 188. *)
Definition probe (past : trace) : trace :=
  snd (check_server ("http://" ++ COMFY_HOST) COMFY_API_AVAILABLE_MAX_RETRIES
                    COMFY_API_AVAILABLE_INTERVAL_MS past).

(** What the engine answers to the POST of [workflow], sent after the
    probe that follows [past]. *)
Definition submission_reply (workflow : value) (past : trace) : exn + string :=
  urlopen W (probe past ++ past)%list prompt_url (Some (post_data workflow)).

(** After [past], a history request comes back, decodes, and does not
    show completion. *)
Definition pending (pid : value) (past : trace) : Prop :=
  exists history,
    history_of pid (urlopen W past (history_url pid) None) = inr (history, false).

End Worker.

(** ** A JSON codec for the scenarios

    [Json.loads] decodes objects, arrays, strings with the short escapes,
    integers and the three literals; it refuses what the scenarios do not
    send, among it numbers with a fraction or an exponent and the escape
    with four hexadecimal digits, which Python's decoder accepts.
    [Json.dumps] writes a document the way [json.dumps] does with its
    default separators.  The properties below hold for every [Lib]; this
    one instantiates them. *)

Module Json.

Definition is_ws (c : ascii) : bool :=
  let n := PyStr.code c in ((n =? 32) || (n =? 9) || (n =? 10) || (n =? 13))%nat.

Fixpoint skip_ws (s : string) : string :=
  match s with
  | EmptyString => EmptyString
  | String c r => if is_ws c then skip_ws r else s
  end.

(** [s] without its first character when that character is [c]. *)
Definition eat (c : ascii) (s : string) : option string :=
  match s with
  | EmptyString => None
  | String c' r => if Ascii.eqb c c' then Some r else None
  end.

Fixpoint drop (n : nat) (s : string) : string :=
  match n, s with
  | S k, String _ r => drop k r
  | _, _ => s
  end.

Definition unescape (c : ascii) : option ascii :=
  let n := PyStr.code c in
  if (n =? 34)%nat then Some c
  else if (n =? 92)%nat then Some c
  else if (n =? 47)%nat then Some c
  else if Ascii.eqb c "b" then Some (ascii_of_nat 8)
  else if Ascii.eqb c "f" then Some (ascii_of_nat 12)
  else if Ascii.eqb c "n" then Some (ascii_of_nat 10)
  else if Ascii.eqb c "r" then Some (ascii_of_nat 13)
  else if Ascii.eqb c "t" then Some (ascii_of_nat 9)
  else None.

(** The text of a string literal after its opening quote, and what
    follows the closing quote. *)
Fixpoint scan_string (s : string) : option (string * string) :=
  match s with
  | EmptyString => None
  | String c r =>
      if Ascii.eqb c PyStr.dquote then Some (EmptyString, r)
      else if Ascii.eqb c "\" then
        match r with
        | EmptyString => None
        | String e r' =>
            match unescape e, scan_string r' with
            | Some ch, Some (t, rest) => Some (String ch t, rest)
            | _, _ => None
            end
        end
      else if (PyStr.code c <? 32)%nat then None
      else
        match scan_string r with
        | Some (t, rest) => Some (String c t, rest)
        | None => None
        end
  end.

Definition is_digit (c : ascii) : bool :=
  let n := PyStr.code c in ((48 <=? n) && (n <=? 57))%nat.

(** The value of a run of digits read after [acc], and what follows. *)
Fixpoint scan_digits (s : string) (acc : Z) : Z * string :=
  match s with
  | EmptyString => (acc, s)
  | String c r =>
      if is_digit c
      then scan_digits r (10 * acc + Z.of_nat (PyStr.code c - 48))%Z
      else (acc, s)
  end.

Definition starts_fraction (s : string) : bool :=
  match s with
  | String c _ => Ascii.eqb c "." || Ascii.eqb c "e" || Ascii.eqb c "E"
  | EmptyString => false
  end.

(** An integer literal: [0], or a non-zero digit followed by digits. *)
Definition scan_nat (s : string) : option (Z * string) :=
  match s with
  | EmptyString => None
  | String c r =>
      if Ascii.eqb c "0" then
        if starts_fraction r then None else Some (0%Z, r)
      else if is_digit c then
        let (n, rest) := scan_digits s 0%Z in
        if starts_fraction rest then None else Some (n, rest)
      else None
  end.

Fixpoint parse_value (fuel : nat) (s : string) {struct fuel}
  : option (value * string) :=
  match fuel with
  | O => None
  | S f =>
      match s with
      | EmptyString => None
      | String c r =>
          if Ascii.eqb c "{" then
            match eat "}" (skip_ws r) with
            | Some rest => Some (VDict [], rest)
            | None => parse_members f (skip_ws r) []
            end
          else if Ascii.eqb c "[" then
            match eat "]" (skip_ws r) with
            | Some rest => Some (VList [], rest)
            | None => parse_items f (skip_ws r) []
            end
          else if Ascii.eqb c PyStr.dquote then
            match scan_string r with
            | Some (t, rest) => Some (VStr t, rest)
            | None => None
            end
          else if String.prefix "null" s then Some (VNone, drop 4 s)
          else if String.prefix "true" s then Some (VBool true, drop 4 s)
          else if String.prefix "false" s then Some (VBool false, drop 5 s)
          else if Ascii.eqb c "-" then
            match scan_nat r with
            | Some (n, rest) => Some (VInt (- n), rest)
            | None => None
            end
          else
            match scan_nat s with
            | Some (n, rest) => Some (VInt n, rest)
            | None => None
            end
      end
  end
with parse_items (fuel : nat) (s : string) (acc : list value) {struct fuel}
  : option (value * string) :=
  match fuel with
  | O => None
  | S f =>
      match parse_value f s with
      | None => None
      | Some (v, rest) =>
          let rest := skip_ws rest in
          match eat "," rest, eat "]" rest with
          | Some more, _ => parse_items f (skip_ws more) (acc ++ [v])%list
          | None, Some after => Some (VList (acc ++ [v])%list, after)
          | None, None => None
          end
      end
  end
with parse_members (fuel : nat) (s : string) (acc : dict) {struct fuel}
  : option (value * string) :=
  match fuel with
  | O => None
  | S f =>
      match eat PyStr.dquote s with
      | None => None
      | Some r =>
          match scan_string r with
          | None => None
          | Some (k, rest) =>
              match eat ":" (skip_ws rest) with
              | None => None
              | Some r2 =>
                  match parse_value f (skip_ws r2) with
                  | None => None
                  | Some (v, rest2) =>
                      let rest2 := skip_ws rest2 in
                      match eat "," rest2, eat "}" rest2 with
                      | Some more, _ => parse_members f (skip_ws more) (dict_set k v acc)
                      | None, Some after => Some (VDict (dict_set k v acc), after)
                      | None, None => None
                      end
                  end
              end
          end
      end
  end.

Definition loads (s : string) : exn + value :=
  match parse_value (2 * String.length s + 2) (skip_ws s) with
  | Some (v, rest) =>
      match skip_ws rest with
      | EmptyString => inr v
      | _ => inl (Exn JSONDecodeError "Extra data")
      end
  | None => inl (Exn JSONDecodeError "Expecting value")
  end.

Definition hex4 (n : nat) : string :=
  String "\" (String "u" (String "0" (String "0"
    (String (PyStr.hex_digit (n / 16)) (String (PyStr.hex_digit (n mod 16)) EmptyString))))).

Definition escape_char (c : ascii) : string :=
  let n := PyStr.code c in
  if (n =? 34)%nat then String "\" (String c EmptyString)
  else if (n =? 92)%nat then "\\"
  else if (n =? 8)%nat then "\b"
  else if (n =? 12)%nat then "\f"
  else if (n =? 10)%nat then "\n"
  else if (n =? 13)%nat then "\r"
  else if (n =? 9)%nat then "\t"
  else if ((32 <=? n) && (n <=? 126))%nat then String c EmptyString
  else hex4 n.

Fixpoint escape (s : string) : string :=
  match s with
  | EmptyString => EmptyString
  | String c r => escape_char c ++ escape r
  end.

Definition quote (s : string) : string :=
  String PyStr.dquote (escape s ++ String PyStr.dquote EmptyString).

Fixpoint dumps (float_repr : float -> string) (v : value) : string :=
  match v with
  | VNone => "null"
  | VBool true => "true"
  | VBool false => "false"
  | VInt z => PyStr.of_Z z
  | VFloat f => float_repr f
  | VStr s => quote s
  | VList l => "[" ++ PyStr.join ", " (map (dumps float_repr) l) ++ "]"
  | VDict d =>
      "{" ++ PyStr.join ", "
               (map (fun kv => quote (fst kv) ++ ": " ++ dumps float_repr (snd kv)) d)
          ++ "}"
  end.

(** A document written with single quotes in place of double quotes. *)
Fixpoint text (s : string) : string :=
  match s with
  | EmptyString => EmptyString
  | String c r => String (if Ascii.eqb c "'" then PyStr.dquote else c) (text r)
  end.

End Json.

(** ** Reading traces *)

Definition is_requests_get (e : event) : bool :=
  match e with EvRequestsGet _ _ => true | _ => false end.

Definition is_post (e : event) : bool :=
  match e with EvUrlopen _ (Some _) _ => true | _ => false end.

Definition is_history_get (e : event) : bool :=
  match e with EvUrlopen _ None _ => true | _ => false end.

(** Upload, classification and encoding of the artifact. *)
Definition is_post_processing (e : event) : bool :=
  match e with
  | EvUpload _ _ _ | EvDetect _ _ | EvReadFile _ _ => true
  | _ => false
  end.

Definition count (p : event -> bool) (t : trace) : nat := List.length (filter p t).

Definition none_of (p : event -> bool) (t : trace) : Prop := count p t = 0.

(** No probe in [t] was answered with status 200. *)
Definition no_success (t : trace) : Prop :=
  forall url, ~ In (EvRequestsGet url (Response 200)) t.

(** Every probe in [t] went to [url]. *)
Definition probes_to (url : string) (t : trace) : Prop :=
  forall e, In e t -> is_requests_get e = true -> exists rep, e = EvRequestsGet url rep.

Definition probe_succeeded (r : get_reply) : bool :=
  match r with
  | Response status_code => (status_code =? 200)%Z
  | RequestException _ => false
  end.

(** The console line [log(s)] prints. *)
Definition log_line (s : string) : event := EvPrint ("[runpod-worker-comfy] " ++ s).

Definition is_print (e : event) : bool :=
  match e with EvPrint _ => true | _ => false end.

Definition is_sleep (e : event) : bool :=
  match e with EvSleep _ => true | _ => false end.

(** Every event of [t] is of kind [p]. *)
Definition only (p : event -> bool) (t : trace) : Prop := forallb p t = true.

(** The events of the availability probe and of the completion poll. *)
Definition probe_event (e : event) : bool :=
  is_print e || is_sleep e || is_requests_get e.

Definition poll_event (e : event) : bool :=
  is_print e || is_sleep e || is_history_get e.

Definition is_path_exists (e : event) : bool :=
  match e with EvPathExists _ _ => true | _ => false end.

Definition delivery_event (e : event) : bool :=
  is_print e || is_path_exists e || is_post_processing e.

Definition missing_message (path : string) : string :=
  "image does not exist in the specified output folder: " ++ path.

(** What a success envelope [v] holds, for a job whose input section is
    [job_input] and whose artifact is at [path], given the events [t] of
    the run: the URL the upload returned; the classifier's findings exactly
    when return-nsfw is set; the base64 text of the file exactly when
    return-b64 is set and the URL is a simulated one. *)
Definition delivered (job job_input : dict) (path : string) (v : value) (t : trace)
  : Prop :=
  exists job_id url d,
    dict_lookup "id" job = Some job_id /\
    In (EvUpload job_id path (inr url)) t /\
    v = VDict d /\
    dict_lookup "url" d = Some (VStr url) /\
    (if job_prop_to_bool job_input "return-nsfw"
     then exists findings,
         In (EvDetect path (inr findings)) t /\ dict_lookup "nsfw" d = Some findings
     else dict_lookup "nsfw" d = None) /\
    (if job_prop_to_bool job_input "return-b64"
        && PyStr.contains "simulated_uploaded/" url
     then exists content,
         In (EvReadFile path (inr content)) t /\
         dict_lookup "base64" d = Some (VStr (Base64.b64encode content))
     else dict_lookup "base64" d = None) /\
    incl (map fst d) ["url"; "nsfw"; "base64"].

(** The events of lines 164-219: console, clock, probe and engine. *)
Definition await_event (e : event) : bool :=
  probe_event e || is_post e || is_history_get e.

Definition is_error_envelope (v : value) : Prop :=
  exists msg, v = VDict [("error", VStr msg)].


(** ** Malformed requests

    The ways a job that has an input section can fail validation, each with
    the message of its error envelope. *)

Definition is_str (v : value) : bool :=
  match v with VStr _ => true | _ => false end.

Inductive malformed (L : Lib) (job : dict) : string -> Prop :=
| input_is_null :
    dict_lookup "input" job = Some VNone ->
    malformed L job "no 'input' property found on job data"
| workflow_is_absent (job_input : dict) :
    dict_lookup "input" job = Some (VDict job_input) ->
    dict_get job_input "workflow" = VNone ->
    malformed L job "no 'workflow' property found on job data"
| workflow_does_not_decode (job_input : dict) (s : string) (e : exn) :
    dict_lookup "input" job = Some (VDict job_input) ->
    dict_get job_input "workflow" = VStr s ->
    json_loads L s = inl e ->
    is_json_decode_error e = true ->
    malformed L job "Invalid JSON format in 'workflow' data"
| workflow_decodes_to_no_map (job_input : dict) (s : string) (decoded : value) :
    dict_lookup "input" job = Some (VDict job_input) ->
    dict_get job_input "workflow" = VStr s ->
    json_loads L s = inr decoded ->
    is_dict decoded = false ->
    malformed L job "'workflow' must be a JSON object or JSON-encoded string"
| workflow_is_no_map (job_input : dict) (w : value) :
    dict_lookup "input" job = Some (VDict job_input) ->
    dict_get job_input "workflow" = w ->
    is_none w = false -> is_str w = false -> is_dict w = false ->
    malformed L job "'workflow' must be a JSON object or JSON-encoded string".

(** The ways [validate] ends: it raises, it returns an error envelope
    after printing its message, or it accepts the job's input section and a
    workflow that is a map.  In no case does it reach the network. *)
Inductive validation (job : dict) : outcome (dict * value) * trace -> Prop :=
| validation_raises (e : exn) :
    validation job (Raised e, [])
| validation_rejects (msg : string) :
    validation job (Returned (error_envelope msg), [log_line msg])
| validation_accepts (job_input workflow : dict) :
    dict_lookup "input" job = Some (VDict job_input) ->
    validation job (Normal (job_input, VDict workflow), []).

(** ** Output nodes

    The filenames an output node reports, in order, when the node has the
    shape the engine documents: a map whose images entry, if any, is a list
    of maps that each carry a filename. *)

Definition image_filename (image : value) : option value :=
  match image with
  | VDict d => dict_lookup "filename" d
  | _ => None
  end.

Fixpoint image_filenames (images : list value) : option (list value) :=
  match images with
  | [] => Some []
  | image :: rest =>
      match image_filename image, image_filenames rest with
      | Some f, Some fs => Some (f :: fs)
      | _, _ => None
      end
  end.

Definition node_filenames (node_output : value) : option (list value) :=
  match node_output with
  | VDict d =>
      match dict_lookup "images" d with
      | None => Some []
      | Some (VList images) => image_filenames images
      | Some _ => None
      end
  | _ => None
  end.

(** All filenames of all nodes, in iteration order. *)
Fixpoint all_filenames (nodes : list (string * value)) : option (list value) :=
  match nodes with
  | [] => Some []
  | (_, node_output) :: rest =>
      match node_filenames node_output, all_filenames rest with
      | Some fs, Some more => Some (fs ++ more)%list
      | _, _ => None
      end
  end.


(** ** Scenarios

    A scripted world: the engine refuses the first probes, answers the POST
    with [sc_queued], reports the history as [sc_pending] for the first
    polls (forever when [sc_completes_after] is [None]) and as [sc_history]
    afterwards; the output folder holds [sc_files]. *)

Record Scenario : Type := {
  sc_refused_probes : nat;
  sc_queued : exn + string;
  sc_completes_after : option nat;
  sc_pending : string;
  sc_history : exn + string;
  sc_files : list (string * list byte);
  sc_upload : exn + string;
  sc_detect : exn + value
}.

Fixpoint file_lookup (path : string) (files : list (string * list byte))
  : option (list byte) :=
  match files with
  | [] => None
  | (name, content) :: rest =>
      if String.eqb path name then Some content else file_lookup path rest
  end.

Definition scenario_world (s : Scenario) : World := {|
  requests_get := fun past _ =>
    if (count is_requests_get past <? sc_refused_probes s)%nat
    then RequestException "Connection refused"
    else Response 200;
  urlopen := fun past _ data =>
    match data with
    | Some _ => sc_queued s
    | None =>
        match sc_completes_after s with
        | None => inr (sc_pending s)
        | Some n =>
            if (count is_history_get past <? n)%nat
            then inr (sc_pending s) else sc_history s
        end
    end;
  path_exists := fun _ path =>
    match file_lookup path (sc_files s) with Some _ => true | None => false end;
  upload_image := fun _ _ _ => sc_upload s;
  nude_detect := fun _ _ => sc_detect s;
  read_file := fun _ path =>
    match file_lookup path (sc_files s) with
    | Some content => inr content
    | None => inl (Exn (OtherException "FileNotFoundError")
                       ("[Errno 2] No such file or directory: " ++ PyStr.repr path))
    end
|}.

(** The integer a finite float with mantissa [m] and exponent [e] stands
    for, when it stands for one. *)
Definition integral_value (m : positive) (e : Z) : option Z :=
  if (0 <=? e)%Z then Some (Z.pos m * 2 ^ e)%Z
  else if (Z.pos m mod 2 ^ (- e) =? 0)%Z then Some (Z.pos m / 2 ^ (- e))%Z
  else None.

(** Floats with an integral value below 10^16, and the special ones, as
    Python writes them (1.0, -3.0, inf, nan).  Any other float is written
    as the word float, which is not what Python writes: the scenarios hold
    no such float in a place that is rendered. *)
Definition scenario_float_repr (f : float) : string :=
  match Prim2SF f with
  | S754_nan => "nan"
  | S754_infinity false => "inf"
  | S754_infinity true => "-inf"
  | S754_zero false => "0.0"
  | S754_zero true => "-0.0"
  | S754_finite sg m e =>
      match integral_value m e with
      | Some n =>
          if (n <? 10 ^ 16)%Z
          then (if sg then "-" else EmptyString) ++ PyStr.of_Z n ++ ".0"
          else "float"
      | None => "float"
      end
  end.

Definition scenario_lib : Lib := {|
  json_loads := Json.loads;
  json_dumps := Json.dumps scenario_float_repr;
  float_repr := scenario_float_repr
|}.

Definition png_bytes : list byte := [x89; "P"%byte; "N"%byte; "G"%byte].

(** Scenario A of the design: the engine is up, assigns the identifier abc
    and shows one image after two pending polls; the file is there and the
    upload is a real one. *)
Definition scenario_a : Scenario := {|
  sc_refused_probes := 3;
  sc_queued := inr (Json.text "{'prompt_id': 'abc', 'number': 1}");
  sc_completes_after := Some 2;
  sc_pending := "{}";
  sc_history :=
    inr (Json.text
           "{'abc': {'outputs': {'9': {'images': [{'filename': 'img1.png', 'type': 'output'}]}}}}");
  sc_files := [("/comfyui/output/img1.png", png_bytes)];
  sc_upload := inr "https://bucket.example/job-1/img1.png";
  sc_detect := inr (VList [VDict [("class", VStr "safe"); ("score", VFloat 0.99%float)]])
|}.

Definition with_upload (r : exn + string) (s : Scenario) : Scenario := {|
  sc_refused_probes := sc_refused_probes s;
  sc_queued := sc_queued s;
  sc_completes_after := sc_completes_after s;
  sc_pending := sc_pending s;
  sc_history := sc_history s;
  sc_files := sc_files s;
  sc_upload := r;
  sc_detect := sc_detect s
|}.

Definition with_history (after : option nat) (h : exn + string) (s : Scenario)
  : Scenario := {|
  sc_refused_probes := sc_refused_probes s;
  sc_queued := sc_queued s;
  sc_completes_after := after;
  sc_pending := sc_pending s;
  sc_history := h;
  sc_files := sc_files s;
  sc_upload := sc_upload s;
  sc_detect := sc_detect s
|}.


Definition workflow_x : value := VDict [("3", VDict [("class_type", VStr "X")])].

Definition job_with (flags : dict) (workflow : value) : dict :=
  [("id", VStr "job-1"); ("input", VDict (("workflow", workflow) :: flags))].

Definition job_a : dict := job_with [] workflow_x.

Definition job_without_input : dict := [("id", VStr "job-1")].

Definition upload_failure : exn :=
  Exn (OtherException "ClientError") "An error occurred (AccessDenied) when calling PutObject".

Definition classifier_failure : exn :=
  Exn (OtherException "RuntimeError") "model file not found".

Definition with_files (files : list (string * list byte)) (s : Scenario) : Scenario := {|
  sc_refused_probes := sc_refused_probes s;
  sc_queued := sc_queued s;
  sc_completes_after := sc_completes_after s;
  sc_pending := sc_pending s;
  sc_history := sc_history s;
  sc_files := files;
  sc_upload := sc_upload s;
  sc_detect := sc_detect s
|}.

Definition with_detect (r : exn + value) (s : Scenario) : Scenario := {|
  sc_refused_probes := sc_refused_probes s;
  sc_queued := sc_queued s;
  sc_completes_after := sc_completes_after s;
  sc_pending := sc_pending s;
  sc_history := sc_history s;
  sc_files := sc_files s;
  sc_upload := sc_upload s;
  sc_detect := r
|}.

(** The file of scenario A is not in the output folder. *)
Definition lost_file_world : World := scenario_world (with_files [] scenario_a).

(** Scenario C of the design: no storage is configured, the upload answers
    with a simulated URL. *)
Definition simulated_world : World :=
  scenario_world (with_upload (inr "simulated_uploaded/img1.png") scenario_a).

Definition job_c : dict :=
  job_with [("return-nsfw", VBool true); ("return-b64", VStr "Yes")] workflow_x.

Definition read_failure : exn :=
  Exn (OtherException "PermissionError") "[Errno 13] Permission denied".

(** The same world, except that no file can be opened. *)
Definition unreadable (w : World) : World := {|
  requests_get := requests_get w;
  urlopen := urlopen w;
  path_exists := path_exists w;
  upload_image := upload_image w;
  nude_detect := nude_detect w;
  read_file := fun _ _ => inl read_failure
|}.

(** A history with three nodes, two of which report images. *)
Definition three_nodes : list (string * value) :=
  [("9", VDict [("images", VList [VDict [("filename", VStr "a.png")];
                                  VDict [("filename", VStr "b.png")]])]);
   ("12", VDict [("text", VList [VStr "done"])]);
   ("15", VDict [("images", VList [VDict [("filename", VStr "c.png"); ("type", VStr "output")]])])].

Definition three_nodes_history : value :=
  VDict [("abc", VDict [("outputs", VDict three_nodes)])].

Definition three_nodes_world : World :=
  scenario_world
    (with_history (Some 1) (inr (Json.dumps scenario_float_repr three_nodes_history))
                  scenario_a).




(** ** Budgets, targets and order

    The time a run spends asleep, the probes that did not get status 200,
    where a call to the engine may go, and the order in which the artifact
    is uploaded, classified and read. *)

Fixpoint slept (t : trace) : nat :=
  match t with
  | [] => 0
  | EvSleep ms :: rest => ms + slept rest
  | _ :: rest => slept rest
  end.

Definition failed_probe (e : event) : bool :=
  match e with
  | EvRequestsGet _ r => negb (probe_succeeded r)
  | _ => false
  end.


(** The upload, classifier and file-read events of a run for the artifact
    at [path], newest first: nothing; an upload; an upload that succeeded
    followed by a classification, by a read, or by a classification that
    succeeded and a read. *)
Inductive post_processing_order (path : string) : trace -> Prop :=
| no_post_processing :
    post_processing_order path []
| upload_only (job_id : value) (r : exn + string) :
    post_processing_order path [EvUpload job_id path r]
| upload_then_detect (job_id : value) (url : string) (r : exn + value) :
    post_processing_order path [EvDetect path r; EvUpload job_id path (inr url)]
| upload_then_read (job_id : value) (url : string) (r : exn + list byte) :
    post_processing_order path [EvReadFile path r; EvUpload job_id path (inr url)]
| upload_detect_read (job_id : value) (url : string) (found : value)
                     (r : exn + list byte) :
    post_processing_order path
      [EvReadFile path r; EvDetect path (inr found); EvUpload job_id path (inr url)].

(** The job with the workflow of its input section replaced by [decoded]. *)
Definition with_workflow (decoded : value) (job job_input : dict) : dict :=
  dict_set "input" (VDict (dict_set "workflow" decoded job_input)) job.

(** The success envelope for an upload that answered [url]. *)
Definition success_envelope (url : string) (nsfw : option value) (b64 : option string)
  : value :=
  VDict ([("url", VStr url)]
           ++ match nsfw with Some found => [("nsfw", found)] | None => [] end
           ++ match b64 with Some text => [("base64", VStr text)] | None => [] end)%list.

(** A job that has an input section but no identifier. *)
Definition job_without_id : dict := [("input", VDict [("workflow", workflow_x)])].

(** The engine reports completion at the first poll. *)
Definition prompt_world : World :=
  scenario_world (with_history (Some 0) (sc_history scenario_a) scenario_a).


(** The engine reports completion with an outputs section that is a list. *)
Definition listed_outputs_history : value :=
  VDict [("abc", VDict [("outputs", VList [VStr "img1.png"])])].

Definition listed_outputs_world : World :=
  scenario_world
    (with_history (Some 0) (inr (Json.dumps scenario_float_repr listed_outputs_history))
                  scenario_a).

(** The second image of the only node has no filename. *)
Definition nameless_image_nodes : list (string * value) :=
  [("9", VDict [("images", VList [VDict [("filename", VStr "a.png")];
                                  VDict [("type", VStr "output")];
                                  VDict [("filename", VStr "c.png")]])])].

Definition nameless_image_history : value :=
  VDict [("abc", VDict [("outputs", VDict nameless_image_nodes)])].

Definition nameless_image_world : World :=
  scenario_world
    (with_history (Some 0) (inr (Json.dumps scenario_float_repr nameless_image_history))
                  scenario_a).


(** The job of scenario A with its workflow sent as text. *)
Definition job_a_as_text : dict :=
  job_with [] (VStr (Json.text "{'3': {'class_type': 'X'}}")).

(** The history of scenario A once the image is there. *)
Definition scenario_a_history : value :=
  VDict [("abc",
          VDict [("outputs",
                  VDict [("9",
                          VDict [("images",
                                  VList [VDict [("filename", VStr "img1.png");
                                                ("type", VStr "output")]])])])])].

(** A string of white space only. *)
Fixpoint all_space (s : string) : bool :=
  match s with
  | EmptyString => true
  | String c rest => PyStr.is_space c && all_space rest
  end.

(** ** The traces a run reaches

    What a run has in its trace when it puts a question to the engine or to
    a collaborator.  A run that started after [past], passed validation
    with [workflow] and was assigned [pid] sends its first history request
    at [poll_start]; the request after [k] pending ones is sent at
    [reached k]. *)

Section Reached.
Variable L : Lib.
Variable W : World.

Definition poll_start (workflow pid : value) (past : trace) : trace :=
  log_line "wait until image generation is complete"
    :: log_line ("ComfyUI queued with job ID " ++ py_str L pid)
    :: EvUrlopen prompt_url (Some (post_data L workflow))
                 (submission_reply L W workflow past)
    :: (probe W past ++ past)%list.

(** The events that [k] history requests add after [start] when none of
    them ends the loop, newest first: each request with the answer the
    engine gives at that point, followed by the sleep of line 214. *)
Fixpoint pending_polls (pid : value) (k : nat) (start : trace) : trace :=
  match k with
  | O => []
  | S j =>
      let t := pending_polls pid j start in
      EvSleep COMFY_POLLING_INTERVAL_MS
        :: EvUrlopen (history_url L pid) None
                     (urlopen W (t ++ start)%list (history_url L pid) None)
        :: t
  end.

Definition reached (pid : value) (k : nat) (start : trace) : trace :=
  (pending_polls pid k start ++ start)%list.

(** The answer to the history request that follows [k] pending ones. *)
Definition poll_reply (pid : value) (k : nat) (start : trace) : exn + string :=
  urlopen W (reached pid k start) (history_url L pid) None.

(** The trace once that request has been answered. *)
Definition answered (pid : value) (k : nat) (start : trace) : trace :=
  EvUrlopen (history_url L pid) None (poll_reply pid k start) :: reached pid k start.

End Reached.

(** Where delivery, which starts at [t], checks for the file at [path],
    uploads it, has it classified and reads it; [nsfw] is the verdict of
    the classifier when it was asked. *)
Definition at_file_check (t : trace) : trace :=
  log_line "image generation is done" :: t.

Definition at_upload (path : string) (t : trace) : trace :=
  log_line "the image exists in the output folder"
    :: EvPathExists path true :: at_file_check t.

Definition at_classifier (job_id : value) (path url : string) (t : trace) : trace :=
  log_line ("scanning nudity for " ++ path)
    :: EvUpload job_id path (inr url) :: at_upload path t.

Definition at_read (nsfw : option value) (job_id : value) (path url : string)
           (t : trace) : trace :=
  log_line ("scanning base64 for " ++ path)
    :: (match nsfw with
        | Some found => EvDetect path (inr found) :: at_classifier job_id path url t
        | None => EvUpload job_id path (inr url) :: at_upload path t
        end).



(** * Properties *)

(** ** Flags *)

Lemma existsb_eqb_In (x : string) (l : list string) :
  existsb (String.eqb x) l = true <-> In x l.
Proof.
  rewrite existsb_exists. split.
  - intros [y [Hin Heq]]. apply String.eqb_eq in Heq. now subst.
  - intros Hin. exists x. split; [assumption | apply String.eqb_refl].
Qed.

(** C9.  [job_prop_to_bool] answers true exactly when the raw value is the
    boolean true, or a string whose lower-cased and then stripped form is
    one of true, t, yes, y, ok, 1.  An absent key, None, false, a number and
    every other value give false. *)
Theorem job_prop_to_bool_spec (job_input : dict) (propname : string) :
  job_prop_to_bool job_input propname = true <->
  (dict_lookup propname job_input = Some (VBool true) \/
   exists s, dict_lookup propname job_input = Some (VStr s) /\
             In (PyStr.strip (PyStr.lower s)) ["true"; "t"; "yes"; "y"; "ok"; "1"]).
Proof.
  unfold job_prop_to_bool, dict_get.
  destruct (dict_lookup propname job_input) as [v|] eqn:Hv.
  - destruct v as [ | b | z | f | s | l | d ];
      try (split; [discriminate | intros [H | [s' [H _]]]; discriminate]).
    + split.
      * intros ->. now left.
      * intros [H | [s' [H _]]]; [now inversion H | discriminate].
    + fold true_strings. rewrite existsb_eqb_In. split.
      * intros H. right. exists s. now split.
      * intros [H | [s' [H Hin]]]; [discriminate | now inversion H; subst].
  - split; [discriminate | intros [H | [s' [H _]]]; discriminate].
Qed.

Example flag_examples :
  map (fun v => job_prop_to_bool [("return-nsfw", v)] "return-nsfw")
      [VBool true; VStr "True"; VStr "YES"; VStr "1"; VStr "ok"; VStr " Y ";
       VBool false; VStr "no"; VInt 0; VInt 1; VNone; VList [VBool true]]
  = [true; true; true; true; true; true; false; false; false; false; false; false]
  /\ job_prop_to_bool [] "return-nsfw" = false.
Proof. split; reflexivity. Qed.

(** ** Running blocks *)

Lemma bind_ret {A B : Type} (a : A) (k : A -> M B) (past : trace) :
  bind (ret a) k past = k a past.
Proof.
  unfold bind, ret. simpl. destruct (k a past) as [r new].
  now rewrite app_nil_r.
Qed.

Lemma bind_emit {B : Type} (e : event) (k : unit -> M B) (past : trace) :
  bind (emit e) k past =
  let (r, new) := k tt (e :: past) in (r, (new ++ [e])%list).
Proof. reflexivity. Qed.

Lemma bind_return {A B : Type} (v : value) (k : A -> M B) (past : trace) :
  bind (return_ v) k past = (Returned v, []).
Proof. reflexivity. Qed.

Lemma bind_raise {A B : Type} (e : exn) (k : A -> M B) (past : trace) :
  bind (raise e) k past = (Raised e, []).
Proof. reflexivity. Qed.

(** ** Traces *)

Lemma count_app (p : event -> bool) (t u : trace) :
  count p (t ++ u)%list = count p t + count p u.
Proof. unfold count. now rewrite filter_app, length_app. Qed.

Lemma only_app (p : event -> bool) (t u : trace) :
  only p (t ++ u)%list <-> only p t /\ only p u.
Proof. unfold only. rewrite forallb_app. apply andb_true_iff. Qed.

Lemma only_count_zero (p q : event -> bool) (t : trace) :
  only p t -> (forall e, p e = true -> q e = false) -> count q t = 0.
Proof.
  unfold only, count. intros Hp Hdisj.
  induction t as [|e t IH]; [reflexivity |].
  simpl in *. apply andb_true_iff in Hp. destruct Hp as [He Ht].
  rewrite (Hdisj e He). now apply IH.
Qed.

(** ** The availability probe *)

Section Probe.
Variable W : World.

Lemma check_server_loop_step (url : string) (delay k : nat) (past : trace) :
  check_server_loop W url delay (S k) past =
  let r := requests_get W past url in
  if probe_succeeded r
  then (Returned (VBool true),
        [log_line "API is reachable"; EvRequestsGet url r])
  else
    let (o, new) :=
      check_server_loop W url delay k (EvSleep delay :: EvRequestsGet url r :: past) in
    (o, (new ++ [EvSleep delay; EvRequestsGet url r])%list).
Proof.
  cbv zeta. simpl check_server_loop. unfold bind at 1. unfold do_requests_get.
  assert (Hcont : forall r0,
    (let (r, new') :=
       (ret tt;; sleep delay;; check_server_loop W url delay k)
         ([EvRequestsGet url r0] ++ past)%list in
     (r, (new' ++ [EvRequestsGet url r0])%list)) =
    (let (o, new) :=
       check_server_loop W url delay k (EvSleep delay :: EvRequestsGet url r0 :: past) in
     (o, (new ++ [EvSleep delay; EvRequestsGet url r0])%list))).
  { intros r0. rewrite bind_ret. unfold sleep. rewrite bind_emit. simpl.
    destruct (check_server_loop W url delay k _) as [o new].
    now rewrite <- app_assoc. }
  destruct (requests_get W past url) as [status | msg]; simpl probe_succeeded.
  - destruct (status =? 200)%Z; [reflexivity | apply Hcont].
  - apply Hcont.
Qed.

Lemma check_server_loop_spec (url : string) (delay k : nat) :
  forall past,
    let (o, new) := check_server_loop W url delay k past in
    probes_to url new /\
    match o with
    | Normal _ => count is_requests_get new = k /\ no_success new
    | Returned v =>
        v = VBool true /\
        count is_requests_get new <= k /\
        exists older,
          new = log_line "API is reachable"
                  :: EvRequestsGet url (Response 200) :: older /\
          no_success older
    | Raised _ => False
    end.
Proof.
  induction k as [|k IH]; intros past.
  - simpl. split; [intros e [] | split; [reflexivity | intros u []]].
  - rewrite check_server_loop_step. cbv zeta.
    destruct (probe_succeeded (requests_get W past url)) eqn:Hok.
    + destruct (requests_get W past url) as [status | msg]; [|discriminate].
      simpl in Hok. apply Z.eqb_eq in Hok. subst status. split.
      * intros e [<- | [<- | []]] He; [discriminate | now eexists].
      * split; [reflexivity | split; [unfold count; simpl; lia |]].
        exists []. split; [reflexivity | intros u []].
    + specialize (IH (EvSleep delay :: EvRequestsGet url (requests_get W past url) :: past)).
      destruct (check_server_loop W url delay k _) as [o new].
      destruct IH as [Hurl Ho].
      assert (Hns : no_success [EvSleep delay; EvRequestsGet url (requests_get W past url)]).
      { intros u [H | [H | []]]; [discriminate |].
        injection H as Hu Hr. rewrite Hr in Hok. discriminate. }
      split.
      * intros e He Hg. apply in_app_or in He. destruct He as [He | [<- | [<- | []]]].
        -- now apply Hurl.
        -- discriminate.
        -- now eexists.
      * destruct o as [[] | v | e].
        -- destruct Ho as [Hc Hn]. split.
           ++ unfold count in *. rewrite filter_app, length_app. simpl. lia.
           ++ intros u Hin. apply in_app_or in Hin. destruct Hin as [Hin | Hin].
              ** now apply (Hn u).
              ** now apply (Hns u).
        -- destruct Ho as [-> [Hc [older [-> Hn]]]]. split; [reflexivity | split].
           ++ unfold count in *. rewrite filter_app, length_app. simpl in *. lia.
           ++ exists (older ++ [EvSleep delay; EvRequestsGet url (requests_get W past url)])%list.
              split; [reflexivity |].
              intros u Hin. apply in_app_or in Hin. destruct Hin as [Hin | Hin].
              ** now apply (Hn u).
              ** now apply (Hns u).
        -- exact Ho.
Qed.

Lemma check_server_loop_events (url : string) (delay k : nat) :
  forall past, only probe_event (snd (check_server_loop W url delay k past)).
Proof.
  induction k as [|k IH]; intros past; [reflexivity |].
  rewrite check_server_loop_step. cbv zeta.
  destruct (probe_succeeded (requests_get W past url)); [reflexivity |].
  specialize (IH (EvSleep delay :: EvRequestsGet url (requests_get W past url) :: past)).
  destruct (check_server_loop W url delay k _) as [o new]. simpl in *.
  apply only_app. split; [exact IH | reflexivity].
Qed.

(** The probe always comes back with a boolean, and only probes, sleeps
    and prints. *)
Lemma check_server_runs (url : string) (retries delay : nat) (past : trace) :
  exists (b : bool) (new : trace),
    check_server W url retries delay past = (Normal (VBool b), new) /\
    only probe_event new.
Proof.
  unfold check_server, call. unfold bind at 1.
  pose proof (check_server_loop_spec url delay retries past) as H.
  pose proof (check_server_loop_events url delay retries past) as Hev.
  destruct (check_server_loop W url delay retries past) as [o new].
  destruct H as [_ Ho]. simpl in Hev.
  destruct o as [[] | v | e].
  - simpl. eexists false, _. split; [reflexivity |]. exact Hev.
  - destruct Ho as [-> _]. eexists true, _. split; [reflexivity | exact Hev].
  - destruct Ho.
Qed.

(** C4.  [check_server] never raises and answers with a boolean.  It sends
    at most [retries] GET requests, all to [url].  It answers true exactly
    when a request was answered with status 200, and then that request is
    its last one; it answers false after exactly [retries] requests, none
    of which was answered with 200, whether they got another status or
    failed with a RequestException. *)
Theorem check_server_spec (url : string) (retries delay : nat) (past : trace) :
  exists (b : bool) (new : trace),
    check_server W url retries delay past = (Normal (VBool b), new) /\
    count is_requests_get new <= retries /\
    probes_to url new /\
    (b = true ->
     exists older,
       new = log_line "API is reachable"
               :: EvRequestsGet url (Response 200) :: older /\
       no_success older) /\
    (b = false -> count is_requests_get new = retries /\ no_success new).
Proof.
  unfold check_server, call. unfold bind at 1.
  pose proof (check_server_loop_spec url delay retries past) as H.
  destruct (check_server_loop W url delay retries past) as [o new].
  destruct H as [Hurl Ho].
  destruct o as [[] | v | e].
  - destruct Ho as [Hc Hn]. simpl.
    eexists false, _. split; [reflexivity |].
    assert (Hcount : forall x, count is_requests_get (EvPrint x :: new) = retries).
    { intros x. unfold count in *. simpl. exact Hc. }
    split; [rewrite Hcount; lia | split; [| split]].
    + intros e [<- | He] Hg; [discriminate | now apply Hurl].
    + discriminate.
    + intros _. split; [apply Hcount |].
      intros u [H | H]; [discriminate | now apply (Hn u)].
  - destruct Ho as [-> [Hc [older [-> Hn]]]].
    eexists true, _. split; [reflexivity |].
    split; [exact Hc | split; [exact Hurl | split]].
    + intros _. now exists older.
    + discriminate.
  - destruct Ho.
Qed.

End Probe.

Section Split.
Variable L : Lib.
Variable W : World.

Lemma handler_split (job : dict) (past : trace) :
  handler L W job past =
  call (reached <- await_history L W job ;;
        let '(job_input, comfy_job_id, history) := reached in
        output_images <- lift (fetch_output_images L history comfy_job_id) ;;
        deliver L W job job_input output_images) past.
Proof.
  unfold handler, await_history, call.
  unfold bind.
  destruct (validate L job past) as [[[ji wf] | v | e] n0]; try reflexivity.
  destruct (check_server W _ _ _ (n0 ++ past)%list) as [[b | v | e] n1]; try reflexivity.
  destruct (submit L W wf _) as [[pid | v | e] n2];
    try (simpl; rewrite <- ?app_assoc; reflexivity).
  destruct (poll L W pid _) as [[h | v | e] n3];
    try (simpl; rewrite <- ?app_assoc; reflexivity).
  simpl. rewrite <- !app_assoc.
  destruct (fetch_output_images L h pid) as [e | oi]; simpl.
  - rewrite <- !app_assoc. reflexivity.
  - destruct (deliver L W job ji oi _) as [[u | v | e] n4];
      simpl; rewrite ?app_nil_r, <- ?app_assoc; reflexivity.
Qed.
End Split.

(** ** Validation *)

Section Validation.
Variable L : Lib.

Lemma log_eq (s : string) (past : trace) :
  log s past = (Normal VNone, [log_line s]).
Proof. reflexivity. Qed.

Lemma return_error_eq (msg : string) (past : trace) :
  return_error msg past = (Normal (error_envelope msg), [log_line msg]).
Proof. reflexivity. Qed.

Lemma return_return_error_eq {A : Type} (msg : string) (past : trace) :
  @return_return_error A msg past = (Returned (error_envelope msg), [log_line msg]).
Proof. reflexivity. Qed.

Lemma decode_workflow_cases (workflow : value) (past : trace) :
  (exists e, decode_workflow L workflow past = (Raised e, [])) \/
  decode_workflow L workflow past =
    (Returned (error_envelope "Invalid JSON format in 'workflow' data"),
     [log_line "Invalid JSON format in 'workflow' data"]) \/
  (exists decoded, decode_workflow L workflow past = (Normal decoded, [])).
Proof.
  destruct workflow as [ | b | z | f | s | l | d ]; simpl;
    try (right; right; eexists; reflexivity).
  destruct (json_loads L s) as [e | decoded].
  - destruct (is_json_decode_error e).
    + right. left. reflexivity.
    + left. eexists. reflexivity.
  - right. right. eexists. reflexivity.
Qed.

Lemma validate_cases (job : dict) (past : trace) :
  validation job (validate L job past).
Proof.
  unfold validate. unfold bind at 1.
  destruct (py_getitem L (VDict job) (VStr "input")) as [e | job_input] eqn:Hin; simpl.
  - constructor.
  - simpl in Hin.
    destruct (dict_lookup "input" job) as [found |] eqn:Hjob; [| discriminate].
    injection Hin as ->.
    destruct job_input as [ | b | z | f | s | l | d ]; simpl;
      try (constructor; fail).
    rewrite bind_ret.
    destruct (is_none (dict_get d "workflow")); [constructor |].
    rewrite bind_ret. unfold bind.
    destruct (decode_workflow_cases (dict_get d "workflow") past)
      as [[e ->] | [-> | [decoded ->]]]; simpl; try constructor.
    destruct decoded; simpl; constructor. exact Hjob.
Qed.
End Validation.

(** ** Submission *)

Section Submission.
Variable L : Lib.
Variable W : World.

Lemma queue_workflow_eq (workflow : value) (past : trace) :
  queue_workflow L W workflow past =
  let r := urlopen W past prompt_url (Some (post_data L workflow)) in
  (match r with
   | inl e => Raised e
   | inr body =>
       match json_loads L body with
       | inl e => Raised e
       | inr queued => Normal queued
       end
   end, [EvUrlopen prompt_url (Some (post_data L workflow)) r]).
Proof.
  unfold queue_workflow, call, bind, do_urlopen, post_data. cbv zeta.
  destruct (urlopen W past prompt_url _) as [e | body]; [reflexivity |].
  destruct (json_loads L body) as [e | queued]; reflexivity.
Qed.

Lemma submit_eq (workflow : value) (past : trace) :
  submit L W workflow past =
  let r := urlopen W past prompt_url (Some (post_data L workflow)) in
  match prompt_id_of L r with
  | inr comfy_job_id =>
      (Normal comfy_job_id,
       [log_line ("ComfyUI queued with job ID " ++ py_str L comfy_job_id);
        EvUrlopen prompt_url (Some (post_data L workflow)) r])
  | inl e =>
      (Returned (error_envelope ("Error queuing prompt: " ++ exn_str e)),
       [log_line ("Error queuing prompt: " ++ exn_str e);
        EvUrlopen prompt_url (Some (post_data L workflow)) r])
  end.
Proof.
  unfold submit, try_except. unfold bind at 1. rewrite queue_workflow_eq. cbv zeta.
  unfold prompt_id_of.
  destruct (urlopen W past prompt_url _) as [e | body]; [reflexivity |].
  destruct (json_loads L body) as [e | queued]; [reflexivity |].
  unfold bind.
  destruct (py_getitem L queued (VStr "prompt_id")) as [e | pid]; reflexivity.
Qed.

End Submission.

(** ** Polling *)

Section Polling.
Variable L : Lib.
Variable W : World.

Lemma get_history_eq (pid : value) (past : trace) :
  get_history L W pid past =
  let r := urlopen W past (history_url L pid) None in
  (match r with
   | inl e => Raised e
   | inr body =>
       match json_loads L body with
       | inl e => Raised e
       | inr history => Normal history
       end
   end, [EvUrlopen (history_url L pid) None r]).
Proof.
  unfold get_history, call, bind, do_urlopen. cbv zeta.
  destruct (urlopen W past _ None) as [e | body]; [reflexivity |].
  destruct (json_loads L body) as [e | history]; reflexivity.
Qed.

Lemma poll_loop_step (pid : value) (k : nat) (past : trace) :
  poll_loop L W pid (S k) past =
  let r := urlopen W past (history_url L pid) None in
  let ev := EvUrlopen (history_url L pid) None r in
  match history_of L pid r with
  | inl e => (Raised e, [ev])
  | inr (history, true) => (Normal history, [ev])
  | inr (history, false) =>
      let (o, new) :=
        poll_loop L W pid k (EvSleep COMFY_POLLING_INTERVAL_MS :: ev :: past) in
      (o, (new ++ [EvSleep COMFY_POLLING_INTERVAL_MS; ev])%list)
  end.
Proof.
  cbv zeta. simpl poll_loop. unfold bind at 1. rewrite get_history_eq. cbv zeta.
  unfold history_of.
  destruct (urlopen W past _ None) as [e | body]; [reflexivity |].
  destruct (json_loads L body) as [e | history]; [reflexivity |].
  unfold bind at 1.
  destruct (completed L pid history) as [e | [|]]; try reflexivity.
  simpl. unfold sleep. rewrite bind_emit.
  destruct (poll_loop L W pid k _) as [o new].
  now rewrite <- !app_assoc.
Qed.

(** How the loop ends, whatever the engine answers. *)
Lemma poll_loop_cases (pid : value) (k : nat) :
  forall past,
    let (o, new) := poll_loop L W pid k past in
    only poll_event new /\
    match o with
    | Normal history => completed L pid history = inr true
    | Returned v =>
        v = error_envelope "Max retries reached while waiting for image generation" /\
        count is_history_get new = k
    | Raised _ => True
    end.
Proof.
  induction k as [|k IH]; intros past.
  - simpl poll_loop. rewrite return_return_error_eq. repeat split.
  - rewrite poll_loop_step. cbv zeta.
    set (r := urlopen W past (history_url L pid) None).
    destruct (history_of L pid r) as [e | [history [|]]] eqn:Hh.
    + split; [reflexivity | exact I].
    + split; [reflexivity |].
      unfold history_of in Hh. destruct r as [e | body]; [discriminate |].
      destruct (json_loads L body) as [e | h]; [discriminate |].
      destruct (completed L pid h) as [e | c] eqn:Hc; [discriminate |].
      injection Hh as -> ->. exact Hc.
    + specialize (IH (EvSleep COMFY_POLLING_INTERVAL_MS
                        :: EvUrlopen (history_url L pid) None r :: past)).
      destruct (poll_loop L W pid k _) as [o new].
      destruct IH as [Honly Ho]. split.
      * apply only_app. split; [exact Honly | reflexivity].
      * destruct o as [h | v | e]; [exact Ho | | exact I].
        destruct Ho as [-> Hc]. split; [reflexivity |].
        rewrite count_app, Hc. unfold count. simpl. lia.
Qed.

(** The loop after [m] pending answers: it goes on with what is left of its
    budget at the trace it has reached. *)
Lemma poll_loop_skip (pid : value) (start : trace) (m : nat) :
  forall n,
    (forall j, j < m -> pending L W pid (reached L W pid j start)) ->
    poll_loop L W pid (m + n) start =
    let (o, new) := poll_loop L W pid n (reached L W pid m start) in
    (o, (new ++ pending_polls L W pid m start)%list).
Proof.
  induction m as [|m IH]; intros n Hpend.
  - simpl. unfold reached. simpl.
    destruct (poll_loop L W pid n start) as [o new]. now rewrite app_nil_r.
  - rewrite Nat.add_succ_comm, IH by (intros j Hj; apply Hpend; lia).
    rewrite poll_loop_step. cbv zeta.
    destruct (Hpend m (Nat.lt_succ_diag_r m)) as [history Hh].
    rewrite Hh.
    change (EvSleep COMFY_POLLING_INTERVAL_MS
              :: EvUrlopen (history_url L pid) None
                   (urlopen W (reached L W pid m start) (history_url L pid) None)
              :: reached L W pid m start)
      with (reached L W pid (S m) start).
    destruct (poll_loop L W pid n (reached L W pid (S m) start)) as [o new].
    now rewrite <- app_assoc.
Qed.



Lemma poll_loop_completes_after (pid : value) (start : trace) (budget k : nat)
      (history : value) :
  k < budget ->
  (forall j, j < k -> pending L W pid (reached L W pid j start)) ->
  history_of L pid (poll_reply L W pid k start) = inr (history, true) ->
  poll_loop L W pid budget start =
    (Normal history,
     (EvUrlopen (history_url L pid) None (poll_reply L W pid k start)
        :: pending_polls L W pid k start)).
Proof.
  intros Hk Hpend Hdone.
  replace budget with (k + S (budget - S k)) by lia.
  rewrite poll_loop_skip by exact Hpend.
  rewrite poll_loop_step. cbv zeta.
  fold (poll_reply L W pid k start). rewrite Hdone. reflexivity.
Qed.

Lemma pending_polls_count (pid : value) (start : trace) (k : nat) :
  count is_history_get (pending_polls L W pid k start) = k.
Proof.
  induction k as [|k IH]; [reflexivity |].
  simpl pending_polls.
  change (?a :: ?b :: ?t) with ([a; b] ++ t)%list.
  rewrite count_app, IH. reflexivity.
Qed.


Lemma poll_cases (pid : value) (past : trace) :
  let (o, new) := poll L W pid past in
  only poll_event new /\
  match o with
  | Normal history => completed L pid history = inr true
  | Returned v => is_error_envelope v
  | Raised _ => False
  end.
Proof.
  unfold poll. unfold bind. rewrite log_eq. unfold try_except.
  pose proof (poll_loop_cases pid COMFY_POLLING_MAX_RETRIES
                ([log_line "wait until image generation is complete"] ++ past)%list) as H.
  destruct (poll_loop L W pid COMFY_POLLING_MAX_RETRIES _) as [[h | v | e] new];
    destruct H as [Honly Ho].
  - split; [| exact Ho]. apply only_app. split; [exact Honly | reflexivity].
  - split; [| destruct Ho as [-> _]; now eexists].
    apply only_app. split; [exact Honly | reflexivity].
  - rewrite return_return_error_eq. split; [| now eexists].
    apply only_app. split; [| reflexivity]. apply only_app. split; [reflexivity | exact Honly].
Qed.

Lemma poll_eq (pid : value) (past : trace) :
  poll L W pid past =
  let line := log_line "wait until image generation is complete" in
  match poll_loop L W pid COMFY_POLLING_MAX_RETRIES (line :: past) with
  | (Raised e, new) =>
      (Returned (error_envelope ("Error waiting for image generation: " ++ exn_str e)),
       (log_line ("Error waiting for image generation: " ++ exn_str e) :: new ++ [line])%list)
  | (o, new) => (o, (new ++ [line])%list)
  end.
Proof.
  unfold poll. unfold bind. rewrite log_eq. unfold try_except. cbv zeta.
  change ([log_line "wait until image generation is complete"] ++ past)%list
    with (log_line "wait until image generation is complete" :: past).
  destruct (poll_loop L W pid COMFY_POLLING_MAX_RETRIES _) as [[h | v | e] new];
    try reflexivity.
Qed.

End Polling.

(** ** Delivery *)

Section Delivery.
Variable L : Lib.
Variable W : World.

Lemma attach_nsfw_eq (job_input : dict) (path : string) (job_output : dict)
      (past : trace) :
  attach_nsfw W job_input path job_output past =
  if job_prop_to_bool job_input "return-nsfw" then
    let line := log_line ("scanning nudity for " ++ path) in
    let r := nude_detect W (line :: past) path in
    (match r with
     | inl e => Raised e
     | inr found => Normal (dict_set "nsfw" found job_output)
     end, [EvDetect path r; line])
  else (Normal job_output, []).
Proof.
  unfold attach_nsfw.
  destruct (job_prop_to_bool job_input "return-nsfw"); [| reflexivity].
  unfold detect_nudity, call, bind, do_detect. rewrite log_eq. cbv zeta.
  change ([log_line ("scanning nudity for " ++ path)] ++ past)%list
    with (log_line ("scanning nudity for " ++ path) :: past).
  destruct (nude_detect W _ path); reflexivity.
Qed.

Lemma attach_base64_eq (job_input : dict) (path : string) (aws_uploaded : bool)
      (job_output : dict) (past : trace) :
  attach_base64 W job_input path aws_uploaded job_output past =
  if negb aws_uploaded && job_prop_to_bool job_input "return-b64" then
    let line := log_line ("scanning base64 for " ++ path) in
    let r := read_file W (line :: past) path in
    (match r with
     | inl e => Raised e
     | inr content =>
         Normal (dict_set "base64" (VStr (Base64.b64encode content)) job_output)
     end, [EvReadFile path r; line])
  else (Normal job_output, []).
Proof.
  unfold attach_base64.
  destruct (negb aws_uploaded && job_prop_to_bool job_input "return-b64");
    [| reflexivity].
  unfold base64_encode, call, bind, do_read_file. rewrite log_eq. cbv zeta.
  change ([log_line ("scanning base64 for " ++ path)] ++ past)%list
    with (log_line ("scanning base64 for " ++ path) :: past).
  destruct (read_file W _ path); reflexivity.
Qed.

Lemma post_process_cases (job job_input : dict) (path : string) (past : trace) :
  let (o, new) := post_process L W job job_input path past in
  only delivery_event new /\
  match o with
  | Normal _ => False
  | Returned v => delivered job job_input path v new
  | Raised _ => True
  end.
Proof.
  unfold post_process. unfold bind at 1. rewrite log_eq.
  unfold bind at 1.
  destruct (py_getitem L (VDict job) (VStr "id")) as [e | job_id] eqn:Hid;
    [simpl; split; [reflexivity | exact I] |].
  simpl in Hid.
  destruct (dict_lookup "id" job) as [found |] eqn:Hjob; [| discriminate].
  injection Hid as ->.
  simpl lift. unfold ret at 1. cbv iota beta.
  unfold bind at 1. unfold do_upload_image at 1. cbv zeta.
  set (p1 := ([] ++ [log_line "the image exists in the output folder"] ++ past)%list).
  destruct (upload_image W p1 job_id path) as [e | url] eqn:Hup; [simpl; split; [reflexivity | exact I] |].
  assert (Hdone : forall jo t,
    In (EvUpload job_id path (inr url)) t ->
    dict_lookup "url" jo = Some (VStr url) ->
    (if job_prop_to_bool job_input "return-nsfw"
     then exists findings,
         In (EvDetect path (inr findings)) t /\ dict_lookup "nsfw" jo = Some findings
     else dict_lookup "nsfw" jo = None) ->
    (if job_prop_to_bool job_input "return-b64"
        && PyStr.contains "simulated_uploaded/" url
     then exists content,
         In (EvReadFile path (inr content)) t /\
         dict_lookup "base64" jo = Some (VStr (Base64.b64encode content))
     else dict_lookup "base64" jo = None) ->
    incl (map fst jo) ["url"; "nsfw"; "base64"] ->
    delivered job job_input path (VDict jo) t).
  { intros jo t H1 H2 H3 H4 H5. exists job_id, url, jo. now repeat split. }
  unfold bind at 1. rewrite attach_nsfw_eq.
  destruct (job_prop_to_bool job_input "return-nsfw") eqn:Hnsfw; cbv zeta.
  - destruct (nude_detect W _ path) as [e | findings] eqn:Hdet;
      [simpl; split; [reflexivity | exact I] |].
    unfold bind at 1. rewrite attach_base64_eq. rewrite negb_involutive.
    rewrite andb_comm in Hdone.
    destruct (PyStr.contains "simulated_uploaded/" url && job_prop_to_bool job_input "return-b64");
      cbv zeta.
    + destruct (read_file W _ path) as [e | content] eqn:Hrd;
        [simpl; split; [reflexivity | exact I] |].
      simpl. split; [reflexivity |].
      apply Hdone; simpl; try tauto; try reflexivity.
      * exists findings. split; [tauto | reflexivity].
      * exists content. split; [tauto | reflexivity].
      * intros k Hk. simpl in *. tauto.
    + simpl. split; [reflexivity |].
      apply Hdone; simpl; try tauto; try reflexivity.
      * exists findings. split; [tauto | reflexivity].
      * intros k Hk. simpl in *. tauto.
  - unfold bind at 1. rewrite attach_base64_eq. rewrite negb_involutive.
    rewrite andb_comm in Hdone.
    destruct (PyStr.contains "simulated_uploaded/" url && job_prop_to_bool job_input "return-b64");
      cbv zeta.
    + destruct (read_file W _ path) as [e | content] eqn:Hrd;
        [simpl; split; [reflexivity | exact I] |].
      simpl. split; [reflexivity |].
      apply Hdone; simpl; try tauto; try reflexivity.
      * exists content. split; [tauto | reflexivity].
      * intros k Hk. simpl in *. tauto.
    + simpl. split; [reflexivity |].
      apply Hdone; simpl; try tauto; try reflexivity.
      intros k Hk. simpl in *. tauto.
Qed.
End Delivery.

Lemma delivered_mono (job job_input : dict) (path : string) (v : value) (t t' : trace) :
  delivered job job_input path v t -> incl t t' -> delivered job job_input path v t'.
Proof.
  intros [job_id [url [d [H1 [H2 [H3 [H4 [H5 [H6 H7]]]]]]]]] Hincl.
  exists job_id, url, d. repeat split; auto.
  - destruct (job_prop_to_bool job_input "return-nsfw"); [| exact H5].
    destruct H5 as [findings [Hin Hd]]. exists findings. auto.
  - destruct (job_prop_to_bool job_input "return-b64"
              && PyStr.contains "simulated_uploaded/" url); [| exact H6].
    destruct H6 as [content [Hin Hd]]. exists content. auto.
Qed.

Section DeliveryCases.
Variable L : Lib.
Variable W : World.

Lemma deliver_missing (job job_input : dict) (output_images : value) (past : trace) :
  let path := local_image_path L output_images in
  path_exists W (log_line "image generation is done" :: past) path = false ->
  deliver L W job job_input output_images past =
  (Returned (error_envelope (missing_message path)),
   [log_line (missing_message path); EvPathExists path false;
    log_line "image generation is done"]).
Proof.
  intros path Hmissing. unfold deliver. unfold bind at 1. rewrite log_eq. cbv zeta.
  unfold bind at 1. unfold do_path_exists.
  change ([log_line "image generation is done"] ++ past)%list
    with (log_line "image generation is done" :: past).
  fold path. rewrite Hmissing. reflexivity.
Qed.

Lemma deliver_cases (job job_input : dict) (output_images : value) (past : trace) :
  let path := local_image_path L output_images in
  let (o, new) := deliver L W job job_input output_images past in
  only delivery_event new /\
  match o with
  | Normal _ => False
  | Returned v =>
      (v = error_envelope (missing_message path) /\ none_of is_post_processing new) \/
      delivered job job_input path v new
  | Raised _ => True
  end.
Proof.
  intros path.
  destruct (path_exists W (log_line "image generation is done" :: past) path) eqn:Hfound.
  - unfold deliver. unfold bind at 1. rewrite log_eq. cbv zeta.
    unfold bind at 1. unfold do_path_exists.
    change ([log_line "image generation is done"] ++ past)%list
      with (log_line "image generation is done" :: past).
    fold path. rewrite Hfound.
    pose proof (post_process_cases L W job job_input path
                  ([EvPathExists path true] ++ log_line "image generation is done" :: past)%list)
      as H.
    destruct (post_process L W job job_input path _) as [o new].
    destruct H as [Honly Ho]. split.
    + apply only_app. split; [| reflexivity]. apply only_app. split; [exact Honly | reflexivity].
    + destruct o as [u | v | e]; [exact Ho | | exact I].
      right. apply (delivered_mono _ _ _ _ _ _ Ho).
      intros e He. apply in_or_app. left. apply in_or_app. now left.
  - rewrite (deliver_missing job job_input output_images past Hfound).
    split; [reflexivity |]. left. split; reflexivity.
Qed.

End DeliveryCases.

(** ** The handler *)

Section Handler.
Variable L : Lib.
Variable W : World.

Lemma await_history_stops (job : dict) (past : trace) :
  (forall v n0, validate L job past = (Returned v, n0) ->
                await_history L W job past = (Returned v, n0)) /\
  (forall e n0, validate L job past = (Raised e, n0) ->
                await_history L W job past = (Raised e, n0)).
Proof.
  split; intros x n0 H; unfold await_history, bind; now rewrite H.
Qed.

Lemma await_history_eq (job : dict) (past : trace) (job_input : dict) (workflow : value) :
  validate L job past = (Normal (job_input, workflow), []) ->
  await_history L W job past =
  let n1 := probe W past in
  let p2 := (n1 ++ past)%list in
  let r := urlopen W p2 prompt_url (Some (post_data L workflow)) in
  let ev := EvUrlopen prompt_url (Some (post_data L workflow)) r in
  match prompt_id_of L r with
  | inl e =>
      (Returned (error_envelope ("Error queuing prompt: " ++ exn_str e)),
       log_line ("Error queuing prompt: " ++ exn_str e) :: ev :: n1)
  | inr pid =>
      let queued := log_line ("ComfyUI queued with job ID " ++ py_str L pid) in
      let (o, n3) := poll L W pid (queued :: ev :: p2) in
      (match o with
       | Normal history => Normal (job_input, pid, history)
       | Returned v => Returned v
       | Raised e => Raised e
       end, (n3 ++ queued :: ev :: n1)%list)
  end.
Proof.
  intros Hval. unfold await_history. unfold bind at 1. rewrite Hval.
  unfold bind at 1. unfold probe. simpl app at 1.
  destruct (check_server_runs W ("http://" ++ COMFY_HOST) COMFY_API_AVAILABLE_MAX_RETRIES
              COMFY_API_AVAILABLE_INTERVAL_MS past) as [b [n1 [Hcs _]]].
  rewrite Hcs. cbv zeta. simpl snd.
  unfold bind at 1. rewrite submit_eq. cbv zeta.
  destruct (prompt_id_of L _) as [e | pid].
  - simpl. now rewrite app_nil_r.
  - unfold bind at 1.
    change ([log_line ("ComfyUI queued with job ID " ++ py_str L pid);
             EvUrlopen prompt_url (Some (post_data L workflow))
               (urlopen W (n1 ++ past)%list prompt_url (Some (post_data L workflow)))]
              ++ n1 ++ past)%list
      with (log_line ("ComfyUI queued with job ID " ++ py_str L pid)
              :: EvUrlopen prompt_url (Some (post_data L workflow))
                   (urlopen W (n1 ++ past)%list prompt_url (Some (post_data L workflow)))
              :: n1 ++ past)%list.
    destruct (poll L W pid _) as [[h | v | e] n3]; simpl;
      rewrite ?app_nil_r, <- ?app_assoc; reflexivity.
Qed.

End Handler.

Section HandlerCases.
Variable L : Lib.
Variable W : World.

Lemma handler_after_await (job : dict) (past : trace) :
  handler L W job past =
  match await_history L W job past with
  | (Returned v, n) => (Normal v, n)
  | (Raised e, n) => (Raised e, n)
  | (Normal (job_input, pid, history), n) =>
      match fetch_output_images L history pid with
      | inl e => (Raised e, n)
      | inr output_images =>
          let (o, n4) := deliver L W job job_input output_images (n ++ past)%list in
          (match o with
           | Normal _ => Normal VNone
           | Returned v => Normal v
           | Raised e => Raised e
           end, (n4 ++ n)%list)
      end
  end.
Proof.
  rewrite handler_split. unfold call. unfold bind at 1.
  destruct (await_history L W job past) as [[[[ji pid] h] | v | e] n]; try reflexivity.
  unfold bind at 1.
  destruct (fetch_output_images L h pid) as [e | oi]; [reflexivity |].
  simpl lift. unfold ret at 1. cbv iota beta. simpl app at 1.
  destruct (deliver L W job ji oi _) as [[u | v | e] n4];
    simpl; rewrite ?app_nil_r; reflexivity.
Qed.

Lemma probe_events (past : trace) : only probe_event (probe W past).
Proof.
  unfold probe.
  destruct (check_server_runs W ("http://" ++ COMFY_HOST) COMFY_API_AVAILABLE_MAX_RETRIES
              COMFY_API_AVAILABLE_INTERVAL_MS past) as [b [n1 [Hcs Ho]]].
  now rewrite Hcs.
Qed.

Lemma only_weaken (p q : event -> bool) (t : trace) :
  (forall e, p e = true -> q e = true) -> only p t -> only q t.
Proof.
  unfold only. intros Hpq. rewrite !forallb_forall. auto.
Qed.

Lemma probe_await (e : event) : probe_event e = true -> await_event e = true.
Proof. unfold await_event. intros ->. reflexivity. Qed.

Lemma poll_await (e : event) : poll_event e = true -> await_event e = true.
Proof. destruct e as [ | | | ? [?|] ? | | | | ]; simpl; auto. Qed.

(** How lines 164-219 end. *)
Lemma await_history_cases (job : dict) (past : trace) :
  let (o, new) := await_history L W job past in
  only await_event new /\
  match o with
  | Normal (job_input, pid, history) =>
      dict_lookup "input" job = Some (VDict job_input) /\
      completed L pid history = inr true
  | Returned v => is_error_envelope v
  | Raised _ => True
  end.
Proof.
  pose proof (validate_cases L job past) as Hv.
  destruct (await_history_stops L W job past) as [Hret Hraise].
  inversion Hv as [e He | msg Hm | ji wf Hin Ha].
  - symmetry in He. rewrite (Hraise _ _ He). split; [reflexivity | exact I].
  - symmetry in Hm. rewrite (Hret _ _ Hm). split; [reflexivity | now eexists].
  - symmetry in Ha. rewrite (await_history_eq L W job past ji (VDict wf) Ha). cbv zeta.
    pose proof (probe_events past) as Hp.
    apply (only_weaken _ _ _ probe_await) in Hp.
    destruct (prompt_id_of L _) as [e | pid].
    + split; [| now eexists].
      change (only await_event ([log_line ("Error queuing prompt: " ++ exn_str e);
                EvUrlopen prompt_url (Some (post_data L (VDict wf)))
                  (urlopen W (probe W past ++ past)%list prompt_url
                     (Some (post_data L (VDict wf))))] ++ probe W past)%list).
      apply only_app. split; [reflexivity | exact Hp].
    + match goal with |- context [poll L W pid ?p] =>
        pose proof (poll_cases L W pid p) as Hpoll;
        destruct (poll L W pid p) as [o n3]
      end.
      destruct Hpoll as [Honly Ho].
      apply (only_weaken _ _ _ poll_await) in Honly.
      split.
      * apply only_app. split; [exact Honly |].
        change (only await_event ([log_line ("ComfyUI queued with job ID " ++ py_str L pid);
                  EvUrlopen prompt_url (Some (post_data L (VDict wf)))
                    (urlopen W (probe W past ++ past)%list prompt_url
                       (Some (post_data L (VDict wf))))] ++ probe W past)%list).
        apply only_app. split; [reflexivity | exact Hp].
      * destruct o as [h | v | e]; [split; assumption | exact Ho | exact I].
Qed.

(** Every way the handler comes back with a value. *)
Lemma handler_returns (job : dict) (past : trace) (v : value) (new : trace) :
  handler L W job past = (Normal v, new) ->
  is_error_envelope v \/
  exists job_input path,
    dict_lookup "input" job = Some (VDict job_input) /\
    delivered job job_input path v new.
Proof.
  rewrite handler_after_await.
  pose proof (await_history_cases job past) as Ha.
  destruct (await_history L W job past) as [[[[ji pid] h] | v' | e] n];
    destruct Ha as [_ Ho]; [| intros [= <- <-]; now left | discriminate].
  destruct Ho as [Hin _].
  destruct (fetch_output_images L h pid) as [e | oi]; [discriminate |].
  pose proof (deliver_cases L W job ji oi (n ++ past)%list) as Hd. cbv zeta in Hd.
  destruct (deliver L W job ji oi _) as [[u | v' | e] n4];
    destruct Hd as [_ Hd]; [destruct Hd | | discriminate].
  intros [= <- <-]. destruct Hd as [[-> _] | Hd]; [left; now eexists |].
  right. exists ji, (local_image_path L oi). split; [exact Hin |].
  apply (delivered_mono _ _ _ _ _ _ Hd). intros e He. apply in_or_app. now left.
Qed.

End HandlerCases.

(** ** Requests that are turned away *)

Section Rejections.
Variable L : Lib.
Variable W : World.

Lemma handler_stops_at_validation (job : dict) (past : trace) :
  (forall v n0, validate L job past = (Returned v, n0) ->
                handler L W job past = (Normal v, n0)) /\
  (forall e n0, validate L job past = (Raised e, n0) ->
                handler L W job past = (Raised e, n0)).
Proof.
  destruct (await_history_stops L W job past) as [Hret Hraise].
  split; intros x n0 H; rewrite handler_after_await.
  - now rewrite (Hret _ _ H).
  - now rewrite (Hraise _ _ H).
Qed.

Lemma validate_without_input (job : dict) (past : trace) :
  dict_lookup "input" job = None ->
  validate L job past = (Raised (key_error L (VStr "input")), []).
Proof.
  intros H. unfold validate, bind. simpl. now rewrite H.
Qed.

Lemma validate_malformed (job : dict) (msg : string) (past : trace) :
  malformed L job msg ->
  validate L job past = (Returned (error_envelope msg), [log_line msg]).
Proof.
  intros H. unfold validate. unfold bind at 1. simpl.
  destruct H as [Hin | ji Hin Hw | ji s e Hin Hw He Hc | ji s v Hin Hw Hv Hd
                 | ji w Hin Hw Hn Hs Hd]; rewrite Hin; simpl.
  - reflexivity.
  - rewrite bind_ret, Hw. reflexivity.
  - rewrite bind_ret, Hw. simpl. rewrite bind_ret. unfold bind. simpl.
    rewrite He, Hc. reflexivity.
  - rewrite bind_ret, Hw. simpl. rewrite bind_ret. unfold bind. simpl.
    rewrite Hv. simpl. rewrite Hd. reflexivity.
  - rewrite bind_ret, Hw, Hn. rewrite bind_ret. unfold bind.
    destruct w; try discriminate; reflexivity.
Qed.

(** A malformed request is answered with its error envelope, and nothing
    but the console line happens: no probe, no submission, no poll. *)
Lemma malformed_is_rejected (job : dict) (msg : string) (past : trace) :
  malformed L job msg ->
  handler L W job past = (Normal (error_envelope msg), [log_line msg]).
Proof.
  intros H. apply handler_stops_at_validation. now apply validate_malformed.
Qed.

Lemma handler_without_input (job : dict) (past : trace) :
  dict_lookup "input" job = None ->
  handler L W job past = (Raised (key_error L (VStr "input")), []).
Proof.
  intros H. apply handler_stops_at_validation. now apply validate_without_input.
Qed.

End Rejections.

Example scenario_d :
  handler scenario_lib (scenario_world scenario_a) (job_with [] (VStr "not json")) []
  = (Normal (VDict [("error", VStr "Invalid JSON format in 'workflow' data")]),
     [log_line "Invalid JSON format in 'workflow' data"]).
Proof.
  apply malformed_is_rejected.
  eapply workflow_does_not_decode; reflexivity.
Qed.

(** ** What the caller receives *)

Lemma envelope_kinds_disjoint (job job_input : dict) (path : string) (v : value)
      (t : trace) :
  is_error_envelope v -> delivered job job_input path v t -> False.
Proof.
  intros [msg ->] [job_id [url [d [_ [_ [Hv [Hurl _]]]]]]].
  injection Hv as <-. discriminate Hurl.
Qed.

(** C1.  The handler does let exceptions reach its caller.  With no input
    key in the job, line 164 raises KeyError('input') before anything else
    happens, in every world.  And in the scenarios, an exception raised by
    the upload, by the classifier when return-nsfw is set, or by reading
    the file for the base64 text leaves the handler as it is: no envelope
    is returned. *)
Theorem exceptions_reach_the_caller :
  (forall (L : Lib) (W : World) (past : trace),
      handler L W job_without_input past = (Raised (Exn KeyError "'input'"), [])) /\
  fst (handler scenario_lib (scenario_world (with_upload (inl upload_failure) scenario_a))
               job_a [])
  = Raised upload_failure /\
  fst (handler scenario_lib (scenario_world (with_detect (inl classifier_failure) scenario_a))
               (job_with [("return-nsfw", VBool true)] workflow_x) [])
  = Raised classifier_failure /\
  fst (handler scenario_lib (unreadable simulated_world) job_c [])
  = Raised read_failure.
Proof.
  split; [| split; [| split]].
  - intros L W past. now apply handler_without_input.
  - vm_compute. reflexivity.
  - vm_compute. reflexivity.
  - vm_compute. reflexivity.
Qed.

(** C2.  A job with no input section is not answered with an InputError
    envelope: the handler raises KeyError('input') and returns nothing.  No
    event happens before that. *)
Theorem missing_input_section_raises (L : Lib) (W : World) (job : dict) (past : trace) :
  dict_lookup "input" job = None ->
  handler L W job past = (Raised (Exn KeyError "'input'"), []).
Proof.
  intros H. now apply handler_without_input.
Qed.

Lemma missing_input_section_raises_witness :
  dict_lookup "input" job_without_input = None /\
  handler scenario_lib (scenario_world scenario_a) job_without_input []
  = (Raised (Exn KeyError "'input'"), []).
Proof.
  split; [reflexivity |].
  apply (missing_input_section_raises scenario_lib (scenario_world scenario_a)
           job_without_input []).
  reflexivity.
Defined.

Section Envelopes.
Variable L : Lib.
Variable W : World.

(** C5.  A success envelope holds the URL the upload returned under url.
    It has an nsfw field exactly when return-nsfw is set, and the field
    is what the classifier found.  It has a base64 field exactly when
    return-b64 is set and the URL contains simulated_uploaded/, and the
    field is the base64 text of the bytes read from the artifact. *)
Theorem success_envelope_fields (job : dict) (past : trace) (v : value) (new : trace) :
  handler L W job past = (Normal v, new) ->
  ~ is_error_envelope v ->
  exists job_input path job_id url d,
    dict_lookup "input" job = Some (VDict job_input) /\
    v = VDict d /\
    In (EvUpload job_id path (inr url)) new /\
    dict_lookup "url" d = Some (VStr url) /\
    ((exists found, dict_lookup "nsfw" d = Some found) <->
     job_prop_to_bool job_input "return-nsfw" = true) /\
    (forall found, dict_lookup "nsfw" d = Some found ->
                   In (EvDetect path (inr found)) new) /\
    ((exists b64, dict_lookup "base64" d = Some b64) <->
     (job_prop_to_bool job_input "return-b64" = true /\
      PyStr.contains "simulated_uploaded/" url = true)) /\
    (forall b64, dict_lookup "base64" d = Some b64 ->
                 exists content,
                   In (EvReadFile path (inr content)) new /\
                   b64 = VStr (Base64.b64encode content)).
Proof.
  intros Hrun Hsuccess.
  destruct (handler_returns L W job past v new Hrun)
    as [Herr | [ji [path [Hin Hd]]]]; [contradiction |].
  destruct Hd as [job_id [url [d [_ [Hup [Hv [Hurl [Hnsfw [Hb64 _]]]]]]]]].
  exists ji, path, job_id, url, d.
  repeat (split; [assumption |]).
  rewrite <- andb_true_iff.
  destruct (job_prop_to_bool ji "return-nsfw");
    destruct (job_prop_to_bool ji "return-b64" && PyStr.contains "simulated_uploaded/" url).
  - destruct Hnsfw as [found [Hdet Hf]]. destruct Hb64 as [content [Hrd Hb]].
    repeat split; eauto.
    + intros found' H. rewrite Hf in H. now injection H as <-.
    + intros b64 H. rewrite Hb in H. injection H as <-. eauto.
  - destruct Hnsfw as [found [Hdet Hf]].
    repeat split; eauto; try discriminate.
    + intros found' H. rewrite Hf in H. now injection H as <-.
    + intros [b64 H]. congruence.
    + intros b64 H. congruence.
  - destruct Hb64 as [content [Hrd Hb]].
    repeat split; eauto; try discriminate.
    + intros [found H]. congruence.
    + intros found H. congruence.
    + intros b64 H. rewrite Hb in H. injection H as <-. eauto.
  - repeat split; eauto; try discriminate.
    + intros [found H]. congruence.
    + intros found H. congruence.
    + intros [b64 H]. congruence.
    + intros b64 H. congruence.
Qed.

End Envelopes.

(** ** Resolving the outputs *)

Lemma last_cons {A : Type} (x : A) (l : list A) (d : A) :
  last (x :: l) d = last l x.
Proof.
  revert x d. induction l as [|y l IH]; intros x d; [reflexivity |].
  change (last (x :: y :: l) d) with (last (y :: l) d).
  now rewrite !IH.
Qed.

Lemma last_append {A : Type} (l m : list A) (d : A) :
  last (l ++ m)%list d = last m (last l d).
Proof.
  revert d. induction l as [|x l IH]; intros d; [reflexivity |].
  simpl app. now rewrite !last_cons, IH.
Qed.

Section Outputs.
Variable L : Lib.

Lemma scan_images_last (images : list value) :
  forall (fs : list value) (output_images : value),
    image_filenames images = Some fs ->
    scan_images L images output_images = inr (last fs output_images).
Proof.
  induction images as [|image rest IH]; intros fs init Hfs;
    simpl in Hfs; simpl scan_images; unfold py_getitem; simpl hashable; cbv iota.
  - now injection Hfs as <-.
  - destruct image as [ | | | | | | d ]; simpl in Hfs; try discriminate.
    destruct (dict_lookup "filename" d) as [f |]; [| discriminate].
    destruct (image_filenames rest) as [fs' |]; [| discriminate].
    injection Hfs as <-. rewrite last_cons. now apply IH.
Qed.

Lemma scan_nodes_last (nodes : list (string * value)) :
  forall (fs : list value) (output_images : value),
    all_filenames nodes = Some fs ->
    scan_nodes L nodes output_images = inr (last fs output_images).
Proof.
  induction nodes as [|[node_id node_output] rest IH]; intros fs init Hfs.
  - simpl in *. now injection Hfs as <-.
  - simpl in Hfs.
    destruct (node_filenames node_output) as [here |] eqn:Hhere; [| discriminate].
    destruct (all_filenames rest) as [more |] eqn:Hmore; [| discriminate].
    injection Hfs as <-. rewrite last_append.
    destruct node_output as [ | | | | | | d ]; simpl in Hhere; try discriminate.
    simpl scan_nodes. unfold py_in, py_getitem, hashable.
    destruct (dict_lookup "images" d) as [images |] eqn:Himg.
    + destruct images as [ | | | | | imgs | ]; try discriminate.
      simpl py_iter. cbv iota.
      rewrite (scan_images_last imgs here init Hhere). now apply IH.
    + injection Hhere as <-. simpl. now apply IH.
Qed.


Lemma fetch_output_images_last (history pid : value) (entry : dict)
      (nodes : list (string * value)) (fs : list value) :
  py_getitem L history pid = inr (VDict entry) ->
  dict_get entry "outputs" = VDict nodes ->
  all_filenames nodes = Some fs ->
  fetch_output_images L history pid = inr (last fs (VDict [])).
Proof.
  intros Hentry Hout Hfs. unfold fetch_output_images.
  rewrite Hentry. simpl. rewrite Hout. simpl. now apply scan_nodes_last.
Qed.

End Outputs.

(** ** The life of a job *)

Section Lifecycle.
Variable L : Lib.
Variable W : World.

Lemma await_event_kinds (e : event) :
  await_event e = true -> is_post_processing e = false.
Proof. destruct e; simpl; auto; discriminate. Qed.

Lemma probe_event_kinds (e : event) :
  probe_event e = true -> is_post e = false /\ is_history_get e = false.
Proof. destruct e as [ | | | ? [?|] ? | | | | ]; simpl; auto; discriminate. Qed.

Lemma poll_event_kinds (e : event) : poll_event e = true -> is_post e = false.
Proof. destruct e as [ | | | ? [?|] ? | | | | ]; simpl; auto; discriminate. Qed.

Lemma delivery_event_kinds (e : event) :
  delivery_event e = true -> is_post e = false /\ is_history_get e = false.
Proof. destruct e as [ | | | ? [?|] ? | | | | ]; simpl; auto; discriminate. Qed.

Lemma await_history_events (job : dict) (past : trace) :
  only await_event (snd (await_history L W job past)).
Proof.
  pose proof (await_history_cases L W job past) as H.
  destruct (await_history L W job past) as [o n]. now destruct H.
Qed.

Lemma deliver_events (job job_input : dict) (output_images : value) (past : trace) :
  only delivery_event (snd (deliver L W job job_input output_images past)).
Proof.
  pose proof (deliver_cases L W job job_input output_images past) as H. cbv zeta in H.
  destruct (deliver L W job job_input output_images past) as [o n]. now destruct H.
Qed.

Lemma deliver_checks_path (job job_input : dict) (output_images : value) (past : trace) :
  exists found,
    In (EvPathExists (local_image_path L output_images) found)
       (snd (deliver L W job job_input output_images past)).
Proof.
  unfold deliver. unfold bind at 1. rewrite log_eq. cbv zeta.
  unfold bind at 1. unfold do_path_exists.
  set (found := path_exists W _ _). exists found.
  match goal with |- context [(if found then ?a else ?b) ?p] =>
    destruct ((if found then a else b) p) as [o n]
  end.
  simpl. apply in_or_app. left. apply in_or_app. right. now left.
Qed.

(** C6.  When the history shows several nodes and several images, the
    filename the handler resolves is that of the last image in iteration
    order over all nodes and all their images, and the one path it looks
    for on disk is built from that single filename; with no image at all
    it is the initial empty mapping. *)
Theorem last_image_is_resolved (job : dict) (past : trace) (job_input : dict)
        (pid history : value) (n : trace) (entry : dict)
        (nodes : list (string * value)) (fs : list value) :
  await_history L W job past = (Normal (job_input, pid, history), n) ->
  py_getitem L history pid = inr (VDict entry) ->
  dict_get entry "outputs" = VDict nodes ->
  all_filenames nodes = Some fs ->
  fetch_output_images L history pid = inr (last fs (VDict [])) /\
  exists found,
    In (EvPathExists (COMFY_OUTPUT_PATH ++ "/" ++ py_str L (last fs (VDict []))) found)
       (snd (handler L W job past)).
Proof.
  intros Hawait Hentry Hout Hfs.
  pose proof (fetch_output_images_last L history pid entry nodes fs Hentry Hout Hfs)
    as Hfetch.
  split; [exact Hfetch |].
  rewrite handler_after_await, Hawait, Hfetch.
  destruct (deliver_checks_path job job_input (last fs (VDict [])) (n ++ past)%list)
    as [found Hin].
  exists found.
  destruct (deliver L W job job_input (last fs (VDict [])) _) as [o n4].
  simpl in *. apply in_or_app. now left.
Qed.



End Lifecycle.

Section Engine.
Variable L : Lib.
Variable W : World.

Lemma probe_has_no_engine_call (past : trace) :
  count is_post (probe W past) = 0 /\ count is_history_get (probe W past) = 0.
Proof.
  pose proof (probe_events W past) as H.
  split; apply (only_count_zero _ _ _ H); intros e He;
    now destruct (probe_event_kinds e He).
Qed.



End Engine.

(** ** The scenarios of the design *)

Example scenario_a_result :
  fst (handler scenario_lib (scenario_world scenario_a) job_a [])
  = Normal (VDict [("url", VStr "https://bucket.example/job-1/img1.png")]).
Proof. vm_compute. reflexivity. Qed.

Example scenario_b_result :
  fst (handler scenario_lib (scenario_world scenario_a)
               (job_with [("return-nsfw", VStr "true")] workflow_x) [])
  = Normal (VDict [("url", VStr "https://bucket.example/job-1/img1.png");
                   ("nsfw", VList [VDict [("class", VStr "safe");
                                          ("score", VFloat 0.99%float)]])]).
Proof. vm_compute. reflexivity. Qed.

Example scenario_c_result :
  fst (handler scenario_lib simulated_world job_c [])
  = Normal (VDict [("url", VStr "simulated_uploaded/img1.png");
                   ("nsfw", VList [VDict [("class", VStr "safe");
                                          ("score", VFloat 0.99%float)]]);
                   ("base64", VStr (Base64.b64encode png_bytes))]).
Proof. vm_compute. reflexivity. Qed.

Example workflow_as_text_is_decoded :
  fst (handler scenario_lib (scenario_world scenario_a)
               (job_with [] (VStr (Json.text "{'3': {'class_type': 'X'}}"))) [])
  = fst (handler scenario_lib (scenario_world scenario_a) job_a []).
Proof. vm_compute. reflexivity. Qed.

Example base64_examples :
  Base64.b64encode ["M"%byte; "a"%byte; "n"%byte] = "TWFu" /\
  Base64.b64encode ["M"%byte; "a"%byte] = "TWE=" /\
  Base64.b64encode ["M"%byte] = "TQ==" /\
  Base64.b64encode [] = EmptyString.
Proof. repeat split. Qed.

Example float_repr_examples :
  scenario_float_repr 1%float = "1.0" /\
  scenario_float_repr (-3)%float = "-3.0" /\
  scenario_float_repr 1024%float = "1024.0" /\
  scenario_float_repr 0%float = "0.0" /\
  Json.dumps scenario_float_repr (VDict [("score", VFloat 1%float)])
  = Json.text "{'score': 1.0}".
Proof. vm_compute. repeat split. Qed.

(** ** Witnesses *)


Lemma success_envelope_fields_witness :
  exists new,
    handler scenario_lib simulated_world job_c [] =
      (Normal (VDict [("url", VStr "simulated_uploaded/img1.png");
                      ("nsfw", VList [VDict [("class", VStr "safe");
                                             ("score", VFloat 0.99%float)]]);
                      ("base64", VStr "iVBORw==")]), new) /\
    exists job_input path job_id url d,
      dict_lookup "input" job_c = Some (VDict job_input) /\
      VDict [("url", VStr "simulated_uploaded/img1.png");
             ("nsfw", VList [VDict [("class", VStr "safe");
                                    ("score", VFloat 0.99%float)]]);
             ("base64", VStr "iVBORw==")] = VDict d /\
      In (EvUpload job_id path (inr url)) new /\
      dict_lookup "url" d = Some (VStr url) /\
      ((exists found, dict_lookup "nsfw" d = Some found) <->
       job_prop_to_bool job_input "return-nsfw" = true) /\
      (forall found, dict_lookup "nsfw" d = Some found ->
                     In (EvDetect path (inr found)) new) /\
      ((exists b64, dict_lookup "base64" d = Some b64) <->
       (job_prop_to_bool job_input "return-b64" = true /\
        PyStr.contains "simulated_uploaded/" url = true)) /\
      (forall b64, dict_lookup "base64" d = Some b64 ->
                   exists content,
                     In (EvReadFile path (inr content)) new /\
                     b64 = VStr (Base64.b64encode content)).
Proof.
  eexists. split; [vm_compute; reflexivity |].
  apply (success_envelope_fields scenario_lib simulated_world job_c []).
  - vm_compute. reflexivity.
  - intros [msg H]. discriminate H.
Defined.

Lemma last_image_is_resolved_witness :
  all_filenames three_nodes = Some [VStr "a.png"; VStr "b.png"; VStr "c.png"] /\
  fetch_output_images scenario_lib three_nodes_history (VStr "abc") = inr (VStr "c.png") /\
  exists found,
    In (EvPathExists "/comfyui/output/c.png" found)
       (snd (handler scenario_lib three_nodes_world job_a [])).
Proof.
  split; [reflexivity |].
  eapply (last_image_is_resolved scenario_lib three_nodes_world job_a []
            [("workflow", workflow_x)] (VStr "abc") three_nodes_history _
            [("outputs", VDict three_nodes)] three_nodes
            [VStr "a.png"; VStr "b.png"; VStr "c.png"]).
  - vm_compute. reflexivity.
  - reflexivity.
  - reflexivity.
  - reflexivity.
Defined.




(** * Further properties *)

(** ** Time asleep *)

Lemma slept_app (t u : trace) : slept (t ++ u)%list = slept t + slept u.
Proof.
  induction t as [|e t IH]; [reflexivity |].
  destruct e; simpl; rewrite IH; lia.
Qed.

Lemma only_slept_zero (p : event -> bool) (t : trace) :
  only p t -> (forall e, p e = true -> is_sleep e = false) -> slept t = 0.
Proof.
  unfold only. intros Hp Hno.
  induction t as [|e t IH]; [reflexivity |].
  simpl in Hp. apply andb_true_iff in Hp. destruct Hp as [He Ht].
  specialize (Hno e He). destruct e; simpl in *; try discriminate; now apply IH.
Qed.

Section ProbeSleeps.
Variable W : World.

Lemma check_server_loop_sleeps (url : string) (delay k : nat) :
  forall past,
    let (o, new) := check_server_loop W url delay k past in
    slept new = delay * count failed_probe new /\
    count failed_probe new <= k /\
    match o with
    | Normal _ => count failed_probe new = k
    | _ => True
    end.
Proof.
  induction k as [|k IH]; intros past.
  - simpl. repeat split; unfold count; simpl; lia.
  - rewrite check_server_loop_step. cbv zeta.
    destruct (probe_succeeded (requests_get W past url)) eqn:Hok.
    + unfold count. simpl. rewrite Hok. simpl. repeat split; lia.
    + specialize (IH (EvSleep delay :: EvRequestsGet url (requests_get W past url) :: past)).
      destruct (check_server_loop W url delay k _) as [o new].
      destruct IH as [Hs [Hle Ho]].
      rewrite slept_app, count_app, Hs.
      assert (Htail : count failed_probe
                        [EvSleep delay; EvRequestsGet url (requests_get W past url)] = 1).
      { unfold count. simpl. now rewrite Hok. }
      rewrite Htail. simpl slept. repeat split; try lia.
      destruct o; try exact I. lia.
Qed.

(** X1.  [check_server] sleeps [delay] milliseconds after every attempt that
    did not get status 200, the last one included, and at no other time:
    the time it sleeps is [delay] times the number of such attempts, which
    is at most [retries], and exactly [retries] when it answers false. *)
Theorem check_server_sleeps (url : string) (retries delay : nat) (past : trace) :
  slept (snd (check_server W url retries delay past))
  = delay * count failed_probe (snd (check_server W url retries delay past)) /\
  count failed_probe (snd (check_server W url retries delay past)) <= retries /\
  (fst (check_server W url retries delay past) = Normal (VBool false) ->
   slept (snd (check_server W url retries delay past)) = delay * retries).
Proof.
  unfold check_server, call. unfold bind at 1 3 5 7 9.
  pose proof (check_server_loop_sleeps url delay retries past) as H.
  pose proof (check_server_loop_spec W url delay retries past) as Hspec.
  destruct (check_server_loop W url delay retries past) as [o new].
  destruct H as [Hs [Hle Ho]]. destruct Hspec as [_ Hspec].
  destruct o as [[] | v | e]; simpl.
  - change (count failed_probe (?x :: new)) with (count failed_probe new).
    rewrite Hs, Ho. repeat split; lia.
  - destruct Hspec as [-> _]. repeat split; try assumption. discriminate.
  - destruct Hspec.
Qed.

End ProbeSleeps.

Lemma check_server_sleeps_witness :
  fst (check_server (scenario_world scenario_a) "http://127.0.0.1:8188" 2 50 [])
  = Normal (VBool false) /\
  slept (snd (check_server (scenario_world scenario_a) "http://127.0.0.1:8188" 2 50 []))
  = 50 * 2.
Proof.
  split; [reflexivity |].
  apply (check_server_sleeps (scenario_world scenario_a) "http://127.0.0.1:8188" 2 50 []).
  reflexivity.
Defined.


(** ** The phases of a run *)

Section Phases.
Variable L : Lib.
Variable W : World.

Lemma poll_loop_bounds (pid : value) (k : nat) :
  forall past,
    count is_history_get (snd (poll_loop L W pid k past)) <= k /\
    slept (snd (poll_loop L W pid k past)) <= COMFY_POLLING_INTERVAL_MS * k /\
    (forall e, In e (snd (poll_loop L W pid k past)) -> is_history_get e = true ->
               exists r, e = EvUrlopen (history_url L pid) None r).
Proof.
  induction k as [|k IH]; intros past.
  - simpl poll_loop. rewrite return_return_error_eq. simpl.
    split; [unfold count; simpl; lia | split; [lia |]].
    intros e [<- | []]; discriminate.
  - rewrite poll_loop_step. cbv zeta.
    set (r := urlopen W past (history_url L pid) None).
    assert (Hone : forall o : outcome value,
      count is_history_get (snd (o, [EvUrlopen (history_url L pid) None r])) <= S k /\
      slept (snd (o, [EvUrlopen (history_url L pid) None r]))
        <= COMFY_POLLING_INTERVAL_MS * S k /\
      (forall e, In e (snd (o, [EvUrlopen (history_url L pid) None r])) ->
                 is_history_get e = true ->
                 exists r', e = EvUrlopen (history_url L pid) None r')).
    { intros o. simpl. unfold count. simpl. repeat split; try lia.
      intros e [<- | []] _. now eexists. }
    destruct (history_of L pid r) as [e | [history [|]]]; try apply Hone.
    specialize (IH (EvSleep COMFY_POLLING_INTERVAL_MS
                      :: EvUrlopen (history_url L pid) None r :: past)).
    destruct (poll_loop L W pid k _) as [o new]. simpl in *.
    destruct IH as [Hc [Hs Ht]].
    rewrite count_app, slept_app. unfold count at 2. simpl.
    repeat split; try lia.
    intros e He Hg. apply in_app_or in He. destruct He as [He | [<- | [<- | []]]].
    + now apply Ht.
    + discriminate.
    + now eexists.
Qed.

Lemma poll_bounds (pid : value) (past : trace) :
  count is_history_get (snd (poll L W pid past)) <= COMFY_POLLING_MAX_RETRIES /\
  slept (snd (poll L W pid past))
    <= COMFY_POLLING_INTERVAL_MS * COMFY_POLLING_MAX_RETRIES /\
  (forall e, In e (snd (poll L W pid past)) -> is_history_get e = true ->
             exists r, e = EvUrlopen (history_url L pid) None r).
Proof.
  rewrite poll_eq. cbv zeta.
  pose proof (poll_loop_bounds pid COMFY_POLLING_MAX_RETRIES
                (log_line "wait until image generation is complete" :: past)) as H.
  generalize dependent COMFY_POLLING_MAX_RETRIES. intros budget H.
  destruct (poll_loop L W pid budget _) as [[h | v | e] new];
    simpl in *; destruct H as [Hc [Hs Ht]].
  - rewrite count_app, slept_app. unfold count at 2. simpl. repeat split; try lia.
    intros e He Hg. apply in_app_or in He. destruct He as [He | [<- | []]];
      [now apply Ht | discriminate].
  - rewrite count_app, slept_app. unfold count at 2. simpl. repeat split; try lia.
    intros e He Hg. apply in_app_or in He. destruct He as [He | [<- | []]];
      [now apply Ht | discriminate].
  - change (count is_history_get (log_line ?m :: ?t)) with (count is_history_get t).
    change (slept (log_line ?m :: ?t)) with (slept t).
    rewrite count_app, slept_app. unfold count at 2. simpl. repeat split; try lia.
    intros e' [<- | He] Hg; [discriminate |].
    apply in_app_or in He. destruct He as [He | [<- | []]];
      [now apply Ht | discriminate].
Qed.

(** The events of a run, phase by phase (newest first): delivery, polling,
    submission, probe, validation.  A phase that was not reached adds
    nothing. *)
Lemma handler_phases (job : dict) (past : trace) :
  exists n_val n_probe n_submit n_poll n_deliver,
    snd (handler L W job past)
      = (n_deliver ++ n_poll ++ n_submit ++ n_probe ++ n_val)%list /\
    only is_print n_val /\
    (n_probe = [] \/ n_probe = probe W past) /\
    (n_submit = [] \/
     exists workflow r msg,
       n_submit = [log_line msg; EvUrlopen prompt_url (Some (post_data L workflow)) r]) /\
    (n_poll = [] \/ exists pid p, n_poll = snd (poll L W pid p)) /\
    (n_deliver = [] \/
     exists job_input output_images p,
       n_deliver = snd (deliver L W job job_input output_images p)).
Proof.
  pose proof (validate_cases L job past) as Hv.
  destruct (handler_stops_at_validation L W job past) as [Hret Hraise].
  inversion Hv as [e He | msg Hm | ji wf Hin Ha].
  - symmetry in He. rewrite (Hraise _ _ He).
    exists [], [], [], [], []. repeat split; auto.
  - symmetry in Hm. rewrite (Hret _ _ Hm).
    exists [log_line msg], [], [], [], []. repeat split; auto.
  - symmetry in Ha.
    rewrite handler_after_await, (await_history_eq L W job past ji (VDict wf) Ha).
    cbv zeta.
    destruct (prompt_id_of L _) as [e | pid].
    + exists [], (probe W past), [log_line ("Error queuing prompt: " ++ exn_str e);
                                  EvUrlopen prompt_url (Some (post_data L (VDict wf)))
                                    (urlopen W (probe W past ++ past)%list prompt_url
                                       (Some (post_data L (VDict wf))))], [], [].
      simpl. rewrite app_nil_r. repeat split; eauto.
    + match goal with |- context [poll L W pid ?p] =>
        assert (Hpoll : exists n3, n3 = snd (poll L W pid p)) by eauto;
        destruct Hpoll as [n3 Hn3];
        assert (Hp : exists pid' p', n3 = snd (poll L W pid' p')) by eauto;
        destruct (poll L W pid p) as [o n3']
      end.
      simpl in Hn3. subst n3'.
      set (n_submit := [log_line ("ComfyUI queued with job ID " ++ py_str L pid);
                        EvUrlopen prompt_url (Some (post_data L (VDict wf)))
                          (urlopen W (probe W past ++ past)%list prompt_url
                             (Some (post_data L (VDict wf))))]).
      assert (Hshape : forall n_deliver o',
        (n_deliver = [] \/
         exists job_input output_images p,
           n_deliver = snd (deliver L W job job_input output_images p)) ->
        exists n_val n_probe n_submit' n_poll n_deliver',
          snd (o' : outcome value, (n_deliver ++ n3 ++ n_submit ++ probe W past)%list)
            = (n_deliver' ++ n_poll ++ n_submit' ++ n_probe ++ n_val)%list /\
          only is_print n_val /\
          (n_probe = [] \/ n_probe = probe W past) /\
          (n_submit' = [] \/
           exists workflow r msg,
             n_submit' = [log_line msg; EvUrlopen prompt_url (Some (post_data L workflow)) r]) /\
          (n_poll = [] \/ exists pid p, n_poll = snd (poll L W pid p)) /\
          (n_deliver' = [] \/
           exists job_input output_images p,
             n_deliver' = snd (deliver L W job job_input output_images p))).
      { intros n_deliver o' Hd.
        exists [], (probe W past), n_submit, n3, n_deliver.
        simpl. rewrite app_nil_r. repeat split; eauto.
        right. unfold n_submit. eauto. }
      destruct o as [h | v | e].
      * destruct (fetch_output_images L h pid) as [e | oi].
        -- apply (Hshape [] (Raised e)). now left.
        -- match goal with |- context [deliver L W job ji oi ?p] =>
             assert (Hd : exists n4, n4 = snd (deliver L W job ji oi p)) by eauto;
             destruct Hd as [n4 Hn4];
             assert (Hd' : exists ji' oi' p', n4 = snd (deliver L W job ji' oi' p'))
               by eauto;
             destruct (deliver L W job ji oi p) as [o n4']
           end.
           simpl in Hn4. subst n4'.
           match goal with |- context [(?o', (n4 ++ ?rest)%list)] =>
             apply (Hshape n4 o')
           end.
           now right.
      * apply (Hshape [] (Returned v)). now left.
      * apply (Hshape [] (Raised e)). now left.
Qed.

End Phases.

(** ** What a run may do *)

Lemma only_filter_nil (p q : event -> bool) (t : trace) :
  only p t -> (forall e, p e = true -> q e = false) -> filter q t = [].
Proof.
  unfold only. intros Hp Hno.
  induction t as [|e t IH]; [reflexivity |].
  simpl in *. apply andb_true_iff in Hp. destruct Hp as [He Ht].
  rewrite (Hno e He). now apply IH.
Qed.


Lemma print_kinds (e : event) :
  is_print e = true ->
  is_requests_get e = false /\ is_post e = false /\ is_history_get e = false /\
  is_sleep e = false /\ is_post_processing e = false.
Proof. destruct e; simpl; try discriminate; auto. Qed.

Lemma delivery_kinds (e : event) :
  delivery_event e = true -> is_requests_get e = false /\ is_sleep e = false.
Proof. destruct e; simpl; try discriminate; auto. Qed.

Lemma poll_kinds (e : event) :
  poll_event e = true -> is_requests_get e = false /\ is_post_processing e = false.
Proof. destruct e as [ | | | ? [?|] ? | | | | ]; simpl; try discriminate; auto. Qed.

Lemma probe_kinds (e : event) :
  probe_event e = true -> is_post_processing e = false.
Proof. destruct e; simpl; try discriminate; auto. Qed.

Section Discipline.
Variable L : Lib.
Variable W : World.

Lemma check_server_eq (url : string) (retries delay : nat) (past : trace) :
  check_server W url retries delay past =
  match check_server_loop W url delay retries past with
  | (Normal _, new) =>
      (Normal (VBool false),
       log_line ("Failed to connect to server at " ++ url ++ " after "
                   ++ PyStr.of_nat retries ++ " attempts.") :: new)
  | (Returned v, new) => (Normal v, new)
  | (Raised e, new) => (Raised e, new)
  end.
Proof.
  unfold check_server, call, bind.
  destruct (check_server_loop W url delay retries past) as [[[] | v | e] new];
    reflexivity.
Qed.

Lemma probe_attempts (past : trace) :
  count is_requests_get (probe W past) <= COMFY_API_AVAILABLE_MAX_RETRIES /\
  slept (probe W past)
    <= COMFY_API_AVAILABLE_INTERVAL_MS * COMFY_API_AVAILABLE_MAX_RETRIES /\
  probes_to ("http://" ++ COMFY_HOST) (probe W past).
Proof.
  unfold probe. rewrite check_server_eq.
  generalize COMFY_API_AVAILABLE_MAX_RETRIES, COMFY_API_AVAILABLE_INTERVAL_MS.
  intros retries delay.
  pose proof (check_server_loop_spec W ("http://" ++ COMFY_HOST) delay retries past) as H.
  pose proof (check_server_loop_sleeps W ("http://" ++ COMFY_HOST) delay retries past) as Hs.
  destruct (check_server_loop W _ delay retries past) as [o new].
  destruct H as [Hurl Ho]. destruct Hs as [Hs [Hle _]].
  assert (Hslept : slept new <= delay * retries) by (rewrite Hs; nia).
  destruct o as [[] | v | e]; cbn [snd].
  - destruct Ho as [Hc _].
    change (count is_requests_get (log_line ?x :: new)) with (count is_requests_get new).
    change (slept (log_line ?x :: new)) with (slept new).
    split; [lia | split; [exact Hslept |]].
    intros e [<- | He] Hg; [discriminate | now apply Hurl].
  - destruct Ho as [_ [Hc _]]. auto.
  - destruct Ho.
Qed.

(** X2.  Whatever the job and whatever the engine answers, one run of the
    handler sends at most COMFY_API_AVAILABLE_MAX_RETRIES = 500 probes, at
    most one POST and at most COMFY_POLLING_MAX_RETRIES = 999 history
    requests. *)
Theorem handler_stays_within_budget (job : dict) (past : trace) :
  count is_requests_get (snd (handler L W job past)) <= 500 /\
  count is_post (snd (handler L W job past)) <= 1 /\
  count is_history_get (snd (handler L W job past)) <= 999.
Proof.
  destruct (handler_phases L W job past)
    as [n_val [n_probe [n_submit [n_poll [n_deliver
         [-> [Hval [Hprobe [Hsubmit [Hpoll Hdeliver]]]]]]]]]].
  rewrite !count_app.
  assert (Hv : count is_requests_get n_val = 0 /\ count is_post n_val = 0 /\
               count is_history_get n_val = 0).
  { repeat split; apply (only_count_zero _ _ _ Hval); intros e He;
      destruct (print_kinds e He) as [? [? [? _]]]; assumption. }
  assert (Hp : count is_requests_get n_probe <= 500 /\ count is_post n_probe = 0 /\
               count is_history_get n_probe = 0).
  { destruct Hprobe as [-> | ->]; [repeat split; unfold count; simpl; lia |].
    destruct (probe_attempts past) as [Hc _].
    destruct (probe_has_no_engine_call W past) as [Hpp Hph].
    repeat split; assumption. }
  assert (Hs : count is_requests_get n_submit = 0 /\ count is_post n_submit <= 1 /\
               count is_history_get n_submit = 0).
  { destruct Hsubmit as [-> | [wf [r [msg ->]]]]; repeat split; unfold count; simpl; lia. }
  assert (Hl : count is_requests_get n_poll = 0 /\ count is_post n_poll = 0 /\
               count is_history_get n_poll <= 999).
  { destruct Hpoll as [-> | [pid [p ->]]]; [repeat split; unfold count; simpl; lia |].
    pose proof (poll_cases L W pid p) as Hc.
    destruct (poll_bounds L W pid p) as [Hh _].
    destruct (poll L W pid p) as [o n]. destruct Hc as [Honly _]. simpl in *.
    repeat split.
    - apply (only_count_zero _ _ _ Honly). intros e He. now destruct (poll_kinds e He).
    - apply (only_count_zero _ _ _ Honly). apply poll_event_kinds.
    - exact Hh. }
  assert (Hd : count is_requests_get n_deliver = 0 /\ count is_post n_deliver = 0 /\
               count is_history_get n_deliver = 0).
  { destruct Hdeliver as [-> | [ji [oi [p ->]]]]; [repeat split |].
    pose proof (deliver_events L W job ji oi p) as Honly.
    repeat split; apply (only_count_zero _ _ _ Honly); intros e He.
    - now destruct (delivery_kinds e He).
    - now destruct (delivery_event_kinds e He).
    - now destruct (delivery_event_kinds e He). }
  lia.
Qed.



(** X4.  A run never sleeps longer than its two budgets allow: at most
    500 times 50 ms while probing plus 999 times 250 ms while polling,
    274750 ms in all. *)
Theorem handler_sleeps_at_most (job : dict) (past : trace) :
  slept (snd (handler L W job past))
    <= COMFY_API_AVAILABLE_INTERVAL_MS * COMFY_API_AVAILABLE_MAX_RETRIES
       + COMFY_POLLING_INTERVAL_MS * COMFY_POLLING_MAX_RETRIES /\
  (Z.of_nat COMFY_API_AVAILABLE_INTERVAL_MS * Z.of_nat COMFY_API_AVAILABLE_MAX_RETRIES
   + Z.of_nat COMFY_POLLING_INTERVAL_MS * Z.of_nat COMFY_POLLING_MAX_RETRIES
   = 274750)%Z.
Proof.
  split; [| reflexivity].
  destruct (handler_phases L W job past)
    as [n_val [n_probe [n_submit [n_poll [n_deliver
         [-> [Hval [Hprobe [Hsubmit [Hpoll Hdeliver]]]]]]]]]].
  rewrite !slept_app.
  generalize (probe_attempts past), (poll_bounds L W).
  generalize dependent (COMFY_API_AVAILABLE_INTERVAL_MS * COMFY_API_AVAILABLE_MAX_RETRIES).
  generalize dependent (COMFY_POLLING_INTERVAL_MS * COMFY_POLLING_MAX_RETRIES).
  intros poll_budget probe_budget Hpa Hpb.
  assert (Hv : slept n_val = 0).
  { apply (only_slept_zero _ _ Hval). intros e He.
    now destruct (print_kinds e He) as [_ [_ [_ [? _]]]]. }
  assert (Hp : slept n_probe <= probe_budget).
  { destruct Hprobe as [-> | ->]; [simpl; lia |]. now destruct Hpa as [_ [Hs _]]. }
  assert (Hs : slept n_submit = 0).
  { destruct Hsubmit as [-> | [wf [r [msg ->]]]]; reflexivity. }
  assert (Hl : slept n_poll <= poll_budget).
  { destruct Hpoll as [-> | [pid [p ->]]]; [simpl; lia |].
    now destruct (Hpb pid p) as [_ [Hs' _]]. }
  assert (Hd : slept n_deliver = 0).
  { destruct Hdeliver as [-> | [ji [oi [p ->]]]]; [reflexivity |].
    apply (only_slept_zero _ _ (deliver_events L W job ji oi p)).
    intros e He. now destruct (delivery_kinds e He). }
  lia.
Qed.

End Discipline.

(** ** The order of post-processing *)

Section Order.
Variable L : Lib.
Variable W : World.

Lemma post_process_order (job job_input : dict) (path : string) (past : trace) :
  post_processing_order path
    (filter is_post_processing (snd (post_process L W job job_input path past))).
Proof.
  unfold post_process. unfold bind at 1. rewrite log_eq.
  unfold bind at 1.
  destruct (py_getitem L (VDict job) (VStr "id")) as [e | job_id];
    [simpl; constructor |].
  simpl lift. unfold ret at 1. cbv iota beta.
  unfold bind at 1. unfold do_upload_image at 1. cbv zeta.
  destruct (upload_image W _ job_id path) as [e | url]; [simpl; constructor |].
  unfold bind at 1. rewrite attach_nsfw_eq.
  destruct (job_prop_to_bool job_input "return-nsfw"); cbv zeta.
  - destruct (nude_detect W _ path) as [e | findings]; [simpl; constructor |].
    unfold bind at 1. rewrite attach_base64_eq.
    destruct (negb _ && _); cbv zeta.
    + destruct (read_file W _ path) as [e | content]; simpl; constructor.
    + simpl. constructor.
  - unfold bind at 1. rewrite attach_base64_eq.
    destruct (negb _ && _); cbv zeta.
    + destruct (read_file W _ path) as [e | content]; simpl; constructor.
    + simpl. constructor.
Qed.

Lemma deliver_order (job job_input : dict) (output_images : value) (past : trace) :
  exists path,
    post_processing_order path
      (filter is_post_processing (snd (deliver L W job job_input output_images past))) /\
    (filter is_post_processing (snd (deliver L W job job_input output_images past)) <> [] ->
     In (EvPathExists path true) (snd (deliver L W job job_input output_images past))).
Proof.
  exists (local_image_path L output_images).
  destruct (path_exists W (log_line "image generation is done" :: past)
              (local_image_path L output_images)) eqn:Hfound.
  - unfold deliver. unfold bind at 1 3 5. rewrite log_eq. cbv zeta.
    unfold bind at 1 2 3. unfold do_path_exists.
    change ([log_line "image generation is done"] ++ past)%list
      with (log_line "image generation is done" :: past).
    rewrite Hfound.
    pose proof (post_process_order job job_input (local_image_path L output_images)
                  ([EvPathExists (local_image_path L output_images) true]
                     ++ log_line "image generation is done" :: past)%list) as H.
    destruct (post_process L W job job_input _ _) as [o new]. cbn [snd] in *.
    rewrite !filter_app. simpl. rewrite !app_nil_r.
    split; [exact H |].
    intros _. apply in_or_app. left. apply in_or_app. right. now left.
  - rewrite (deliver_missing L W job job_input output_images past Hfound).
    simpl. split; [constructor | intros H; now elim H].
Qed.

(** X5.  In every run the artifact is uploaded at most once, then
    classified at most once, then read at most once, in that order and all
    for one path; a classification or a read only follows an upload that
    succeeded, and none of the three happens unless os.path.exists has
    answered true for that path. *)
Theorem post_processing_follows_the_file_check (job : dict) (past : trace) :
  exists path,
    post_processing_order path
      (filter is_post_processing (snd (handler L W job past))) /\
    (filter is_post_processing (snd (handler L W job past)) <> [] ->
     In (EvPathExists path true) (snd (handler L W job past))).
Proof.
  destruct (handler_phases L W job past)
    as [n_val [n_probe [n_submit [n_poll [n_deliver
         [-> [Hval [Hprobe [Hsubmit [Hpoll Hdeliver]]]]]]]]]].
  rewrite !filter_app.
  assert (Hv : filter is_post_processing n_val = []).
  { apply (only_filter_nil _ _ _ Hval). intros e He.
    now destruct (print_kinds e He) as [_ [_ [_ [_ ?]]]]. }
  assert (Hp : filter is_post_processing n_probe = []).
  { destruct Hprobe as [-> | ->]; [reflexivity |].
    apply (only_filter_nil _ _ _ (probe_events W past)). apply probe_kinds. }
  assert (Hs : filter is_post_processing n_submit = []).
  { destruct Hsubmit as [-> | [wf [r [msg ->]]]]; reflexivity. }
  assert (Hl : filter is_post_processing n_poll = []).
  { destruct Hpoll as [-> | [pid [p ->]]]; [reflexivity |].
    pose proof (poll_cases L W pid p) as Hc.
    destruct (poll L W pid p) as [o n]. destruct Hc as [Honly _]. simpl.
    apply (only_filter_nil _ _ _ Honly). intros e He. now destruct (poll_kinds e He). }
  rewrite Hv, Hp, Hs, Hl, !app_nil_r.
  destruct Hdeliver as [-> | [ji [oi [p ->]]]].
  - exists EmptyString. split; [constructor | intros H; now elim H].
  - destruct (deliver_order job ji oi p) as [path [Ho Hin]].
    exists path. split; [exact Ho |].
    intros Hne. apply in_or_app. left. now apply Hin.
Qed.

End Order.

(** ** Failures after validation *)

Section Failures.
Variable L : Lib.
Variable W : World.



(** X8.  Once the test of line 210 has held for a history, line 224 cannot
    raise on it: the identifier's entry is a map and its outputs value is
    truthy, so resolving the output images can only fail from
    outputs.items() on. *)
Theorem completion_guards_outputs (pid history : value) :
  completed L pid history = inr true ->
  exists entry,
    py_getitem L history pid = inr (VDict entry) /\
    truthy (dict_get entry "outputs") = true /\
    fetch_output_images L history pid =
      match py_items (dict_get entry "outputs") with
      | inl e => inl e
      | inr nodes => scan_nodes L nodes (VDict [])
      end.
Proof.
  unfold completed, fetch_output_images.
  destruct (py_in pid history) as [e | [|]]; try discriminate.
  destruct (py_getitem L history pid) as [e | entry]; [discriminate |].
  destruct entry as [ | | | | | | d ]; simpl; try discriminate.
  intros [= Ht]. exists d. repeat split. exact Ht.
Qed.

(** X9.  When completion was seen but the outputs section is not a map,
    outputs.items() raises AttributeError on line 226 and the exception
    leaves the handler; nothing is looked for on disk. *)
Theorem outputs_that_are_no_map_raise (job : dict) (past : trace) (job_input : dict)
        (pid history : value) (n : trace) (entry : dict) :
  await_history L W job past = (Normal (job_input, pid, history), n) ->
  py_getitem L history pid = inr (VDict entry) ->
  is_dict (dict_get entry "outputs") = false ->
  handler L W job past
  = (Raised (Exn AttributeError
               ("'" ++ type_name (dict_get entry "outputs")
                    ++ "' object has no attribute 'items'")), n).
Proof.
  intros Hawait Hentry Hshape.
  rewrite handler_after_await, Hawait.
  unfold fetch_output_images. rewrite Hentry. simpl py_get. cbv iota.
  destruct (dict_get entry "outputs"); try discriminate; reflexivity.
Qed.

Lemma scan_images_after (good l : list value) (fs : list value) (init : value) :
  image_filenames good = Some fs ->
  scan_images L (good ++ l)%list init = scan_images L l (last fs init).
Proof.
  revert fs init. induction good as [|image good IH]; intros fs init Hfs.
  - simpl in Hfs. injection Hfs as <-. reflexivity.
  - simpl in Hfs.
    destruct image as [ | | | | | | d ]; simpl in Hfs; try discriminate.
    destruct (dict_lookup "filename" d) as [f |] eqn:Hf; [| discriminate].
    destruct (image_filenames good) as [fs' |]; [| discriminate].
    injection Hfs as <-. rewrite last_cons.
    simpl app. simpl scan_images. unfold py_getitem. simpl hashable. cbv iota.
    rewrite Hf. now apply IH.
Qed.

Lemma scan_nodes_after (before l : list (string * value)) (fs : list value)
      (init : value) :
  all_filenames before = Some fs ->
  scan_nodes L (before ++ l)%list init = scan_nodes L l (last fs init).
Proof.
  revert fs init. induction before as [|[k node] before IH]; intros fs init Hfs.
  - simpl in Hfs. injection Hfs as <-. reflexivity.
  - simpl in Hfs.
    destruct (node_filenames node) as [here |] eqn:Hhere; [| discriminate].
    destruct (all_filenames before) as [more |] eqn:Hmore; [| discriminate].
    injection Hfs as <-. rewrite last_append.
    destruct node as [ | | | | | | d ]; simpl in Hhere; try discriminate.
    simpl app. simpl scan_nodes. unfold py_in, py_getitem, hashable.
    destruct (dict_lookup "images" d) as [images |] eqn:Himg.
    + destruct images as [ | | | | | imgs | ]; try discriminate.
      simpl py_iter. cbv iota.
      rewrite (scan_images_last L imgs here init Hhere). now apply IH.
    + injection Hhere as <-. simpl. now apply IH.
Qed.

(** X10.  An image that is a map without a filename makes line 229 raise
    KeyError('filename'), whatever well-formed nodes and images come before
    it and whatever comes after; the exception leaves the handler. *)
Theorem image_without_filename_raises (job : dict) (past : trace) (job_input : dict)
        (pid history : value) (n : trace) (entry : dict)
        (before after : list (string * value)) (node_id : string) (node : dict)
        (good rest : list value) (image : dict) (fs0 fs1 : list value) :
  await_history L W job past = (Normal (job_input, pid, history), n) ->
  py_getitem L history pid = inr (VDict entry) ->
  dict_get entry "outputs" = VDict (before ++ (node_id, VDict node) :: after)%list ->
  all_filenames before = Some fs0 ->
  dict_lookup "images" node = Some (VList (good ++ VDict image :: rest)%list) ->
  image_filenames good = Some fs1 ->
  dict_lookup "filename" image = None ->
  handler L W job past = (Raised (Exn KeyError "'filename'"), n).
Proof.
  intros Hawait Hentry Hout Hbefore Himages Hgood Hname.
  rewrite handler_after_await, Hawait.
  unfold fetch_output_images. rewrite Hentry. simpl py_get. cbv iota.
  rewrite Hout. simpl py_items. cbv iota.
  rewrite (scan_nodes_after before _ fs0 _ Hbefore).
  simpl scan_nodes. rewrite Himages.
  simpl py_iter. cbv iota.
  rewrite (scan_images_after good _ fs1 _ Hgood).
  simpl scan_images. rewrite Hname.
  reflexivity.
Qed.

(** X11.  A job without an id fails only after the file was found: line
    241 raises KeyError('id') before the upload is called, so nothing is
    uploaded, classified or read. *)
Theorem job_without_id_raises (job : dict) (past : trace) (job_input : dict)
        (pid history : value) (n : trace) (output_images : value) :
  await_history L W job past = (Normal (job_input, pid, history), n) ->
  fetch_output_images L history pid = inr output_images ->
  path_exists W (log_line "image generation is done" :: n ++ past)%list
              (local_image_path L output_images) = true ->
  dict_lookup "id" job = None ->
  exists new,
    handler L W job past = (Raised (Exn KeyError "'id'"), new) /\
    none_of is_post_processing new.
Proof.
  intros Hawait Hfetch Hfound Hid.
  rewrite handler_after_await, Hawait, Hfetch.
  unfold deliver. unfold bind at 1. rewrite log_eq. cbv zeta.
  unfold bind at 1. unfold do_path_exists.
  change ([log_line "image generation is done"] ++ n ++ past)%list
    with (log_line "image generation is done" :: n ++ past)%list.
  rewrite Hfound.
  unfold post_process. unfold bind at 1. rewrite log_eq.
  unfold bind at 1. simpl py_getitem. rewrite Hid. simpl.
  eexists. split; [reflexivity |].
  pose proof (await_history_events L W job past) as Hev. rewrite Hawait in Hev.
  simpl in Hev.
  unfold none_of.
  change (count is_post_processing (?a :: ?b :: ?c :: n)) with (count is_post_processing n).
  apply (only_count_zero _ _ _ Hev). apply await_event_kinds.
Qed.

End Failures.

(** ** Dictionaries in the handler *)

Lemma dict_lookup_set_same (k : string) (v : value) (d : dict) :
  dict_lookup k (dict_set k v d) = Some v.
Proof.
  induction d as [|[k' v'] d IH]; simpl.
  - now rewrite String.eqb_refl.
  - destruct (String.eqb k k') eqn:Hk; simpl; rewrite Hk; [reflexivity | exact IH].
Qed.

Lemma dict_lookup_set_other (k k' : string) (v : value) (d : dict) :
  k <> k' -> dict_lookup k' (dict_set k v d) = dict_lookup k' d.
Proof.
  intros Hne. induction d as [|[k0 v0] d IH]; simpl.
  - destruct (String.eqb k' k) eqn:Hk; [| reflexivity].
    apply String.eqb_eq in Hk. now subst.
  - destruct (String.eqb k k0) eqn:Hk; simpl.
    + apply String.eqb_eq in Hk. subst k0.
      destruct (String.eqb k' k) eqn:Hk'; [| reflexivity].
      apply String.eqb_eq in Hk'. now subst.
    + now rewrite IH.
Qed.

Lemma dict_lookup_keys (k : string) (v : value) (d : dict) :
  dict_lookup k d = Some v -> In k (map fst d).
Proof.
  induction d as [|[k' v'] d IH]; simpl; [discriminate |].
  destruct (String.eqb k k') eqn:Hk.
  - apply String.eqb_eq in Hk. auto.
  - auto.
Qed.

Section Success.
Variable L : Lib.
Variable W : World.

(** X12.  A value the handler returns is never None and never both kinds
    of envelope: it is a map that either is the error envelope, with its
    single error field and no url, or has a url that is a string and no
    error field. *)
Theorem returned_value_is_one_envelope (job : dict) (past : trace) (v : value)
        (new : trace) :
  handler L W job past = (Normal v, new) ->
  exists d,
    v = VDict d /\
    (((exists msg, d = [("error", VStr msg)]) /\ dict_lookup "url" d = None) \/
     ((exists url, dict_lookup "url" d = Some (VStr url)) /\
      dict_lookup "error" d = None)).
Proof.
  intros Hrun.
  destruct (handler_returns L W job past v new Hrun)
    as [[msg ->] | [ji [path [_ Hd]]]].
  - eexists. split; [reflexivity |]. left. split; [now exists msg | reflexivity].
  - destruct Hd as [job_id [url [d [_ [_ [-> [Hurl [_ [_ Hkeys]]]]]]]]].
    exists d. split; [reflexivity |]. right. split; [now exists url |].
    destruct (dict_lookup "error" d) as [x |] eqn:Herr; [| reflexivity].
    apply dict_lookup_keys in Herr. apply Hkeys in Herr.
    simpl in Herr. destruct Herr as [H | [H | [H | []]]]; discriminate.
Qed.

Lemma post_process_succeeds (job job_input : dict) (path : string) (t : trace)
      (job_id : value) (url : string) (found : value) (content : list byte) :
  dict_lookup "id" job = Some job_id ->
  upload_image W (at_upload path t) job_id path = inr url ->
  (job_prop_to_bool job_input "return-nsfw" = true ->
   nude_detect W (at_classifier job_id path url t) path = inr found) ->
  (job_prop_to_bool job_input "return-b64" = true ->
   PyStr.contains "simulated_uploaded/" url = true ->
   read_file W
     (at_read (if job_prop_to_bool job_input "return-nsfw" then Some found else None)
              job_id path url t) path = inr content) ->
  fst (post_process L W job job_input path (EvPathExists path true :: at_file_check t))
  = Returned
      (success_envelope url
         (if job_prop_to_bool job_input "return-nsfw" then Some found else None)
         (if job_prop_to_bool job_input "return-b64"
             && PyStr.contains "simulated_uploaded/" url
          then Some (Base64.b64encode content) else None)).
Proof.
  intros Hid Hup Hdet Hrd.
  unfold post_process. unfold bind at 1. rewrite log_eq.
  unfold bind at 1. simpl py_getitem. rewrite Hid.
  simpl lift. unfold ret at 1. cbv iota beta.
  unfold bind at 1. unfold do_upload_image at 1. cbv zeta.
  change (upload_image W _ job_id path) with (upload_image W (at_upload path t) job_id path).
  rewrite Hup.
  unfold bind at 1. rewrite attach_nsfw_eq.
  destruct (job_prop_to_bool job_input "return-nsfw"); cbv zeta.
  - change (nude_detect W _ path)
      with (nude_detect W (at_classifier job_id path url t) path).
    rewrite (Hdet eq_refl).
    unfold bind at 1. rewrite attach_base64_eq. rewrite negb_involutive.
    destruct (job_prop_to_bool job_input "return-b64");
      destruct (PyStr.contains "simulated_uploaded/" url); simpl andb; cbv iota zeta;
        try reflexivity.
    change (read_file W _ path)
      with (read_file W (at_read (Some found) job_id path url t) path).
    rewrite (Hrd eq_refl eq_refl). reflexivity.
  - unfold bind at 1. rewrite attach_base64_eq. rewrite negb_involutive.
    destruct (job_prop_to_bool job_input "return-b64");
      destruct (PyStr.contains "simulated_uploaded/" url); simpl andb; cbv iota zeta;
        try reflexivity.
    change (read_file W _ path)
      with (read_file W (at_read None job_id path url t) path).
    rewrite (Hrd eq_refl eq_refl). reflexivity.
Qed.

(** X13.  When nothing goes wrong the job succeeds: the job is valid, the
    engine assigns an identifier and, after k requests that found the
    prompt pending, reports completion to a request within the budget, the
    output images resolve, the file is there, the job has an id, the upload
    answers a URL, and the classifier and the file read answer when they
    are asked; each answer is the one given at the trace the run has
    reached when it asks.  The handler then returns the success envelope
    (the URL, the findings if return-nsfw is set, the base64 text if
    return-b64 is set and the URL is a simulated one) after exactly k + 1
    history requests. *)
Theorem job_succeeds (job : dict) (past : trace) (job_input : dict)
        (workflow pid history output_images job_id : value) (k : nat)
        (path : string) (t : trace)
        (url : string) (found : value) (content : list byte) :
  validate L job past = (Normal (job_input, workflow), []) ->
  prompt_id_of L (submission_reply L W workflow past) = inr pid ->
  k < COMFY_POLLING_MAX_RETRIES ->
  (forall j, j < k ->
     pending L W pid (reached L W pid j (poll_start L W workflow pid past))) ->
  history_of L pid (poll_reply L W pid k (poll_start L W workflow pid past))
    = inr (history, true) ->
  t = answered L W pid k (poll_start L W workflow pid past) ->
  fetch_output_images L history pid = inr output_images ->
  path = local_image_path L output_images ->
  path_exists W (at_file_check t) path = true ->
  dict_lookup "id" job = Some job_id ->
  upload_image W (at_upload path t) job_id path = inr url ->
  (job_prop_to_bool job_input "return-nsfw" = true ->
   nude_detect W (at_classifier job_id path url t) path = inr found) ->
  (job_prop_to_bool job_input "return-b64" = true ->
   PyStr.contains "simulated_uploaded/" url = true ->
   read_file W
     (at_read (if job_prop_to_bool job_input "return-nsfw" then Some found else None)
              job_id path url t) path = inr content) ->
  fst (handler L W job past)
  = Normal
      (success_envelope url
         (if job_prop_to_bool job_input "return-nsfw" then Some found else None)
         (if job_prop_to_bool job_input "return-b64"
             && PyStr.contains "simulated_uploaded/" url
          then Some (Base64.b64encode content) else None)) /\
  count is_history_get (snd (handler L W job past)) = S k.
Proof.
  intros Hval Hpid Hk Hpend Hdone Ht Hfetch Hpath Hfile Hid Hup Hdet Hrd.
  destruct (probe_has_no_engine_call W past) as [_ Hph].
  rewrite handler_after_await, (await_history_eq L W job past job_input workflow Hval).
  cbv zeta. fold (submission_reply L W workflow past). rewrite Hpid.
  rewrite poll_eq. cbv zeta.
  pose proof (poll_loop_completes_after L W pid (poll_start L W workflow pid past)
                COMFY_POLLING_MAX_RETRIES k history Hk Hpend Hdone) as Hloop.
  unfold poll_start in Hloop at 1. rewrite Hloop. rewrite Hfetch.
  set (polls := pending_polls L W pid k (poll_start L W workflow pid past)) in *.
  set (ev := EvUrlopen (history_url L pid) None
               (poll_reply L W pid k (poll_start L W workflow pid past))) in *.
  assert (Hpast : ((((ev :: polls)
                       ++ [log_line "wait until image generation is complete"])
                      ++ log_line ("ComfyUI queued with job ID " ++ py_str L pid)
                      :: EvUrlopen prompt_url (Some (post_data L workflow))
                           (submission_reply L W workflow past)
                      :: probe W past) ++ past)%list = t).
  { rewrite Ht. unfold answered, reached, poll_start. fold polls. fold ev.
    rewrite <- !app_assoc. reflexivity. }
  rewrite Hpast.
  assert (Hdel : fst (deliver L W job job_input output_images t)
                 = Returned
                     (success_envelope url
                        (if job_prop_to_bool job_input "return-nsfw"
                         then Some found else None)
                        (if job_prop_to_bool job_input "return-b64"
                            && PyStr.contains "simulated_uploaded/" url
                         then Some (Base64.b64encode content) else None))).
  { unfold deliver. unfold bind at 1. rewrite log_eq. cbv zeta.
    unfold bind at 1. unfold do_path_exists. rewrite <- Hpath.
    change (path_exists W _ path) with (path_exists W (at_file_check t) path).
    rewrite Hfile.
    pose proof (post_process_succeeds job job_input path t job_id url found content
                  Hid Hup Hdet Hrd) as Hpost.
    change (EvPathExists path true :: at_file_check t)
      with ([EvPathExists path true] ++ [log_line "image generation is done"] ++ t)%list
      in Hpost.
    destruct (post_process L W job job_input path _) as [o n4].
    simpl in Hpost. subst o. reflexivity. }
  pose proof (deliver_events L W job job_input output_images t) as Hd.
  destruct (deliver L W job job_input output_images t) as [o n4].
  simpl in Hdel, Hd. subst o. cbn [fst snd]. split; [reflexivity |].
  assert (Hc : count is_history_get polls = k) by apply pending_polls_count.
  change (ev :: polls) with ([ev] ++ polls)%list.
  change (?a :: ?b :: probe W past) with ([a; b] ++ probe W past)%list.
  rewrite !count_app, Hc, Hph.
  rewrite (only_count_zero _ is_history_get _ Hd
             (fun e He => proj2 (delivery_event_kinds e He))).
  unfold count, log_line, ev. simpl. lia.
Qed.


End Success.

(** ** Validation, in full *)

Section Acceptance.
Variable L : Lib.
Variable W : World.

Lemma validate_accepts (job job_input : dict) (workflow : value) (past : trace) :
  dict_lookup "input" job = Some (VDict job_input) ->
  is_dict workflow = true ->
  (dict_get job_input "workflow" = workflow \/
   exists s, dict_get job_input "workflow" = VStr s /\ json_loads L s = inr workflow) ->
  validate L job past = (Normal (job_input, workflow), []).
Proof.
  intros Hin Hdict Hw. unfold validate. unfold bind at 1. simpl py_getitem.
  rewrite Hin. simpl. rewrite bind_ret.
  destruct workflow as [ | | | | | | d ]; try discriminate.
  destruct Hw as [Hw | [s [Hw Hs]]]; rewrite Hw; simpl.
  - reflexivity.
  - rewrite bind_ret. unfold bind. simpl. rewrite Hs. reflexivity.
Qed.

(** X14.  [validate] lets a job through exactly when its input section is
    a map whose workflow is a map, or a string that json.loads decodes to a
    map; the workflow handed on is that map, and validation itself prints
    nothing and calls nobody. *)
Theorem validation_accepts_exactly (job job_input : dict) (workflow : value)
        (past n : trace) :
  validate L job past = (Normal (job_input, workflow), n) <->
  (n = [] /\
   dict_lookup "input" job = Some (VDict job_input) /\
   is_dict workflow = true /\
   (dict_get job_input "workflow" = workflow \/
    exists s, dict_get job_input "workflow" = VStr s /\ json_loads L s = inr workflow)).
Proof.
  split.
  - unfold validate. unfold bind at 1. simpl py_getitem.
    destruct (dict_lookup "input" job) as [input |]; [| discriminate].
    simpl lift. unfold ret at 1. cbv iota beta.
    destruct input as [ | | | | | | ji ]; simpl; try discriminate.
    rewrite bind_ret.
    destruct (is_none (dict_get ji "workflow")) eqn:Hnone; [discriminate |].
    rewrite bind_ret. unfold bind.
    destruct (dict_get ji "workflow") as [ | b | z | f | s | l | d ] eqn:Hw;
      simpl; try discriminate.
    + destruct (json_loads L s) as [e | decoded] eqn:Hs.
      * destruct (is_json_decode_error e); discriminate.
      * simpl. destruct decoded; simpl; try discriminate.
        intros [= <- <- <-]. repeat split; auto. right. exists s. auto.
    + intros [= <- <- <-]. repeat split; auto.
  - intros [-> [Hin [Hdict Hw]]]. now apply validate_accepts.
Qed.

(** X15.  A request that is malformed (input null, workflow absent or
    null, workflow text that does not decode, workflow that is no map) is
    answered with the error envelope for its defect, and the only thing
    that happens is the one console line: no probe, no POST, no poll. *)
Theorem malformed_request_is_turned_away (job : dict) (msg : string) (past : trace) :
  malformed L job msg ->
  handler L W job past = (Normal (VDict [("error", VStr msg)]),
                          [EvPrint ("[runpod-worker-comfy] " ++ msg)]).
Proof.
  intros H. apply handler_stops_at_validation. now apply validate_malformed.
Qed.

(** X16.  Nothing leaves the process before validation has passed: either
    [validate] accepts the job, or the whole run is at most one console
    line. *)
Theorem nothing_happens_before_validation (job : dict) (past : trace) :
  (exists job_input workflow,
      validate L job past = (Normal (job_input, VDict workflow), [])) \/
  (only is_print (snd (handler L W job past)) /\
   List.length (snd (handler L W job past)) <= 1).
Proof.
  pose proof (validate_cases L job past) as Hv.
  destruct (handler_stops_at_validation L W job past) as [Hret Hraise].
  inversion Hv as [e He | msg Hm | ji wf Hin Ha].
  - right. symmetry in He. rewrite (Hraise _ _ He). simpl. split; [reflexivity | lia].
  - right. symmetry in Hm. rewrite (Hret _ _ Hm). simpl. split; [reflexivity | lia].
  - left. now exists ji, wf.
Qed.

Lemma job_prop_to_bool_other (job_input : dict) (v : value) (propname : string) :
  "workflow" <> propname ->
  job_prop_to_bool (dict_set "workflow" v job_input) propname
  = job_prop_to_bool job_input propname.
Proof.
  intros Hne. unfold job_prop_to_bool, dict_get.
  now rewrite dict_lookup_set_other.
Qed.

Lemma deliver_same (job job' job_input job_input' : dict) (output_images : value)
      (past : trace) :
  dict_lookup "id" job' = dict_lookup "id" job ->
  job_prop_to_bool job_input' "return-nsfw" = job_prop_to_bool job_input "return-nsfw" ->
  job_prop_to_bool job_input' "return-b64" = job_prop_to_bool job_input "return-b64" ->
  deliver L W job' job_input' output_images past
  = deliver L W job job_input output_images past.
Proof.
  intros Hid Hnsfw Hb64.
  unfold deliver, post_process, attach_nsfw, attach_base64. simpl py_getitem.
  now rewrite Hid, Hnsfw, Hb64.
Qed.

(** X17.  A workflow sent as JSON text is handled exactly like the same
    workflow sent as a map: if the text decodes to a map, the run with the
    text and the run with the map in its place return the same value after
    the same events. *)
Theorem text_workflow_is_the_decoded_workflow (job job_input : dict) (s : string)
        (decoded : dict) (past : trace) :
  dict_lookup "input" job = Some (VDict job_input) ->
  dict_get job_input "workflow" = VStr s ->
  json_loads L s = inr (VDict decoded) ->
  handler L W job past = handler L W (with_workflow (VDict decoded) job job_input) past.
Proof.
  intros Hin Hw Hs.
  set (job_input' := dict_set "workflow" (VDict decoded) job_input).
  assert (Hv : validate L job past = (Normal (job_input, VDict decoded), [])).
  { apply validate_accepts; [exact Hin | reflexivity |]. right. now exists s. }
  assert (Hv' : validate L (with_workflow (VDict decoded) job job_input) past
                = (Normal (job_input', VDict decoded), [])).
  { apply validate_accepts; [apply dict_lookup_set_same | reflexivity |].
    left. unfold dict_get, job_input'. now rewrite dict_lookup_set_same. }
  rewrite !handler_after_await.
  rewrite (await_history_eq L W _ past _ _ Hv), (await_history_eq L W _ past _ _ Hv').
  cbv zeta.
  destruct (prompt_id_of L _) as [e | pid]; [reflexivity |].
  destruct (poll L W pid _) as [[h | v | e] n3]; try reflexivity.
  destruct (fetch_output_images L h pid) as [e | oi]; [reflexivity |].
  rewrite (deliver_same job (with_workflow (VDict decoded) job job_input)
             job_input job_input' oi).
  - reflexivity.
  - unfold with_workflow. now rewrite dict_lookup_set_other.
  - apply job_prop_to_bool_other. discriminate.
  - apply job_prop_to_bool_other. discriminate.
Qed.

End Acceptance.

(** ** Witnesses of the further properties *)



Lemma completion_guards_outputs_witness :
  completed scenario_lib (VStr "abc") three_nodes_history = inr true /\
  exists entry,
    py_getitem scenario_lib three_nodes_history (VStr "abc") = inr (VDict entry) /\
    truthy (dict_get entry "outputs") = true /\
    fetch_output_images scenario_lib three_nodes_history (VStr "abc") =
      match py_items (dict_get entry "outputs") with
      | inl e => inl e
      | inr nodes => scan_nodes scenario_lib nodes (VDict [])
      end.
Proof.
  split; [reflexivity |].
  apply (completion_guards_outputs scenario_lib (VStr "abc") three_nodes_history).
  reflexivity.
Defined.

Lemma outputs_that_are_no_map_raise_witness :
  handler scenario_lib listed_outputs_world job_a []
  = (Raised (Exn AttributeError "'list' object has no attribute 'items'"),
     snd (await_history scenario_lib listed_outputs_world job_a [])).
Proof.
  apply (outputs_that_are_no_map_raise scenario_lib listed_outputs_world job_a []
           [("workflow", workflow_x)] (VStr "abc") listed_outputs_history
           (snd (await_history scenario_lib listed_outputs_world job_a []))
           [("outputs", VList [VStr "img1.png"])]).
  - vm_compute. reflexivity.
  - reflexivity.
  - reflexivity.
Defined.

Lemma image_without_filename_raises_witness :
  handler scenario_lib nameless_image_world job_a []
  = (Raised (Exn KeyError "'filename'"),
     snd (await_history scenario_lib nameless_image_world job_a [])).
Proof.
  apply (image_without_filename_raises scenario_lib nameless_image_world job_a []
           [("workflow", workflow_x)] (VStr "abc") nameless_image_history
           (snd (await_history scenario_lib nameless_image_world job_a []))
           [("outputs", VDict nameless_image_nodes)]
           [] [] "9"
           [("images", VList [VDict [("filename", VStr "a.png")];
                              VDict [("type", VStr "output")];
                              VDict [("filename", VStr "c.png")]])]
           [VDict [("filename", VStr "a.png")]]
           [VDict [("filename", VStr "c.png")]]
           [("type", VStr "output")]
           [] [VStr "a.png"]).
  - vm_compute. reflexivity.
  - reflexivity.
  - reflexivity.
  - reflexivity.
  - reflexivity.
  - reflexivity.
  - reflexivity.
Defined.

Lemma job_without_id_raises_witness :
  dict_lookup "id" job_without_id = None /\
  exists new,
    handler scenario_lib prompt_world job_without_id []
      = (Raised (Exn KeyError "'id'"), new) /\
    none_of is_post_processing new.
Proof.
  split; [reflexivity |].
  eapply (job_without_id_raises scenario_lib prompt_world job_without_id []
            [("workflow", workflow_x)] (VStr "abc") _ _ (VStr "img1.png")).
  - vm_compute. reflexivity.
  - reflexivity.
  - reflexivity.
  - reflexivity.
Defined.

Lemma returned_value_is_one_envelope_witness :
  exists d,
    VDict [("url", VStr "https://bucket.example/job-1/img1.png")] = VDict d /\
    (((exists msg, d = [("error", VStr msg)]) /\ dict_lookup "url" d = None) \/
     ((exists url, dict_lookup "url" d = Some (VStr url)) /\
      dict_lookup "error" d = None)).
Proof.
  eapply (returned_value_is_one_envelope scenario_lib (scenario_world scenario_a)
            job_a []).
  vm_compute. reflexivity.
Defined.

Lemma job_succeeds_witness :
  fst (handler scenario_lib simulated_world job_c [])
  = Normal (VDict [("url", VStr "simulated_uploaded/img1.png");
                   ("nsfw", VList [VDict [("class", VStr "safe");
                                          ("score", VFloat 0.99%float)]]);
                   ("base64", VStr (Base64.b64encode png_bytes))]) /\
  count is_history_get (snd (handler scenario_lib simulated_world job_c [])) = 3.
Proof.
  eapply (job_succeeds scenario_lib simulated_world job_c []
            [("workflow", workflow_x); ("return-nsfw", VBool true);
             ("return-b64", VStr "Yes")]
            workflow_x (VStr "abc") scenario_a_history (VStr "img1.png") (VStr "job-1")
            2 "/comfyui/output/img1.png" _
            "simulated_uploaded/img1.png"
            (VList [VDict [("class", VStr "safe"); ("score", VFloat 0.99%float)]])
            png_bytes).
  - reflexivity.
  - vm_compute. reflexivity.
  - unfold COMFY_POLLING_MAX_RETRIES. lia.
  - intros [|[|j]] Hj; [| | lia]; exists (VDict []); vm_compute; reflexivity.
  - vm_compute. reflexivity.
  - reflexivity.
  - vm_compute. reflexivity.
  - vm_compute. reflexivity.
  - reflexivity.
  - reflexivity.
  - reflexivity.
  - intros _. reflexivity.
  - intros _ _. reflexivity.
Defined.

Lemma malformed_request_is_turned_away_witness :
  malformed scenario_lib (job_with [] (VStr "not json"))
            "Invalid JSON format in 'workflow' data" /\
  handler scenario_lib (scenario_world scenario_a) (job_with [] (VStr "not json")) []
  = (Normal (VDict [("error", VStr "Invalid JSON format in 'workflow' data")]),
     [EvPrint "[runpod-worker-comfy] Invalid JSON format in 'workflow' data"]).
Proof.
  assert (H : malformed scenario_lib (job_with [] (VStr "not json"))
                        "Invalid JSON format in 'workflow' data").
  { eapply workflow_does_not_decode; reflexivity. }
  split; [exact H |].
  exact (malformed_request_is_turned_away scenario_lib (scenario_world scenario_a)
           (job_with [] (VStr "not json")) _ [] H).
Defined.

Lemma text_workflow_is_the_decoded_workflow_witness :
  handler scenario_lib (scenario_world scenario_a) job_a_as_text []
  = handler scenario_lib (scenario_world scenario_a)
            (with_workflow workflow_x job_a_as_text
               [("workflow", VStr (Json.text "{'3': {'class_type': 'X'}}"))]) [].
Proof.
  apply (text_workflow_is_the_decoded_workflow scenario_lib (scenario_world scenario_a)
           job_a_as_text
           [("workflow", VStr (Json.text "{'3': {'class_type': 'X'}}"))]
           (Json.text "{'3': {'class_type': 'X'}}")
           [("3", VDict [("class_type", VStr "X")])] []).
  - reflexivity.
  - reflexivity.
  - vm_compute. reflexivity.
Defined.

(** ** When polling stops *)

Section FirstCompletion.
Variable L : Lib.
Variable W : World.

Lemma poll_loop_stops_at_completion (pid : value) (k : nat) :
  forall past history new,
    poll_loop L W pid k past = (Normal history, new) ->
    exists r older,
      new = EvUrlopen (history_url L pid) None r :: older /\
      history_of L pid r = inr (history, true) /\
      (forall r', In (EvUrlopen (history_url L pid) None r') older ->
                  exists h', history_of L pid r' = inr (h', false)) /\
      slept new = COMFY_POLLING_INTERVAL_MS * count is_history_get older.
Proof.
  induction k as [|k IH]; intros past history new.
  - simpl poll_loop. rewrite return_return_error_eq. discriminate.
  - rewrite poll_loop_step. cbv zeta.
    set (r := urlopen W past (history_url L pid) None).
    destruct (history_of L pid r) as [e | [h [|]]] eqn:Hh.
    + discriminate.
    + intros [= <- <-]. exists r, [].
      split; [reflexivity | split; [exact Hh | split]].
      * intros r' [].
      * unfold count. simpl. lia.
    + specialize (IH (EvSleep COMFY_POLLING_INTERVAL_MS
                        :: EvUrlopen (history_url L pid) None r :: past) history).
      destruct (poll_loop L W pid k _) as [o n].
      intros [= -> <-].
      destruct (IH n eq_refl) as [r0 [older [-> [Hr0 [Hold Hs]]]]].
      exists r0, (older ++ [EvSleep COMFY_POLLING_INTERVAL_MS;
                            EvUrlopen (history_url L pid) None r])%list.
      split; [reflexivity | split; [exact Hr0 | split]].
      * intros r' Hin. apply in_app_or in Hin.
        destruct Hin as [Hin | [Hin | [Hin | []]]].
        -- now apply Hold.
        -- discriminate.
        -- injection Hin as <-. now exists h.
      * change (EvUrlopen (history_url L pid) None r0 :: older ++ ?t)%list
          with ((EvUrlopen (history_url L pid) None r0 :: older) ++ t)%list.
        rewrite slept_app, count_app, Hs.
        change (slept [EvSleep COMFY_POLLING_INTERVAL_MS;
                       EvUrlopen (history_url L pid) None r])
          with (COMFY_POLLING_INTERVAL_MS + 0).
        change (count is_history_get [EvSleep COMFY_POLLING_INTERVAL_MS;
                                      EvUrlopen (history_url L pid) None r])
          with 1.
        generalize COMFY_POLLING_INTERVAL_MS. intros ms. nia.
Qed.

(** X18.  Polling stops at the first history that shows completion: when
    the polling step hands on a history, that history is the decoded
    answer of the last request and passed the test of line 210, every
    earlier request was answered by a history that did not pass it, and
    the handler slept 250 ms after each of those and not after the last. *)
Theorem polling_stops_at_first_completion (pid : value) (past : trace)
        (history : value) (new : trace) :
  poll L W pid past = (Normal history, new) ->
  exists r older,
    new = EvUrlopen (history_url L pid) None r :: older /\
    history_of L pid r = inr (history, true) /\
    (forall r', In (EvUrlopen (history_url L pid) None r') older ->
                exists h', history_of L pid r' = inr (h', false)) /\
    slept new = 250 * count is_history_get older.
Proof.
  rewrite poll_eq. cbv zeta.
  destruct (poll_loop L W pid COMFY_POLLING_MAX_RETRIES _) as [[h | v | e] n] eqn:Hloop;
    try discriminate.
  intros [= <- <-].
  destruct (poll_loop_stops_at_completion pid _ _ _ _ Hloop)
    as [r [older [-> [Hr [Hold Hs]]]]].
  exists r, (older ++ [log_line "wait until image generation is complete"])%list.
  split; [reflexivity | split; [exact Hr | split]].
  - intros r' Hin. apply in_app_or in Hin. destruct Hin as [Hin | [Hin | []]].
    + now apply Hold.
    + discriminate.
  - change (EvUrlopen (history_url L pid) None r :: older ++ ?t)%list
      with ((EvUrlopen (history_url L pid) None r :: older) ++ t)%list.
    rewrite slept_app, count_app, Hs.
    change (slept [log_line "wait until image generation is complete"]) with 0.
    change (count is_history_get [log_line "wait until image generation is complete"])
      with 0.
    rewrite !Nat.add_0_r. reflexivity.
Qed.

End FirstCompletion.

Lemma polling_stops_at_first_completion_witness :
  exists r older,
    snd (poll scenario_lib (scenario_world scenario_a) (VStr "abc") [])
      = EvUrlopen (history_url scenario_lib (VStr "abc")) None r :: older /\
    history_of scenario_lib (VStr "abc") r = inr (scenario_a_history, true) /\
    (forall r', In (EvUrlopen (history_url scenario_lib (VStr "abc")) None r') older ->
                exists h', history_of scenario_lib (VStr "abc") r' = inr (h', false)) /\
    slept (snd (poll scenario_lib (scenario_world scenario_a) (VStr "abc") []))
      = 250 * count is_history_get older.
Proof.
  apply (polling_stops_at_first_completion scenario_lib (scenario_world scenario_a)
           (VStr "abc") [] scenario_a_history
           (snd (poll scenario_lib (scenario_world scenario_a) (VStr "abc") []))).
  vm_compute. reflexivity.
Defined.

(** ** The error messages *)

Section Taxonomy.
Variable L : Lib.
Variable W : World.

Lemma validate_returns_message (job : dict) (past : trace) (v : value) (n : trace) :
  validate L job past = (Returned v, n) ->
  exists msg,
    v = error_envelope msg /\
    In msg ["no 'input' property found on job data";
            "no 'workflow' property found on job data";
            "Invalid JSON format in 'workflow' data";
            "'workflow' must be a JSON object or JSON-encoded string"].
Proof.
  unfold validate. unfold bind at 1. simpl py_getitem.
  destruct (dict_lookup "input" job) as [input |]; [| discriminate].
  simpl lift. unfold ret at 1. cbv iota beta.
  destruct input as [ | | | | | | ji ]; simpl; try discriminate.
  - intros [= <- _]. eexists. split; [reflexivity | simpl; tauto].
  - rewrite bind_ret.
    destruct (is_none (dict_get ji "workflow")) eqn:Hnone.
    + intros [= <- _]. eexists. split; [reflexivity | simpl; tauto].
    + rewrite bind_ret. unfold bind.
      destruct (decode_workflow_cases L (dict_get ji "workflow") past)
        as [[e ->] | [-> | [decoded ->]]]; simpl; try discriminate.
      * intros [= <- _]. eexists. split; [reflexivity | simpl; tauto].
      * destruct decoded; simpl; try discriminate;
          intros [= <- _]; eexists; (split; [reflexivity | simpl; tauto]).
Qed.

Lemma poll_returns_message (pid : value) (past : trace) (v : value) (n : trace) :
  poll L W pid past = (Returned v, n) ->
  v = error_envelope "Max retries reached while waiting for image generation" \/
  exists e, v = error_envelope ("Error waiting for image generation: " ++ exn_str e).
Proof.
  rewrite poll_eq. cbv zeta.
  pose proof (poll_loop_cases L W pid COMFY_POLLING_MAX_RETRIES
                (log_line "wait until image generation is complete" :: past)) as H.
  destruct (poll_loop L W pid COMFY_POLLING_MAX_RETRIES _) as [[h | v' | e] new];
    destruct H as [_ Ho]; try discriminate.
  - intros [= <- _]. left. now destruct Ho.
  - intros [= <- _]. right. now exists e.
Qed.

(** X19.  Every error envelope the handler returns carries one of eight
    messages: the four of validation, Error queuing prompt with the text of
    an exception, Max retries reached while waiting for image generation,
    Error waiting for image generation with the text of an exception, or
    image does not exist in the specified output folder with the path that
    was looked for. *)
Theorem error_envelopes_are_classified (job : dict) (past : trace) (msg : string)
        (new : trace) :
  handler L W job past = (Normal (VDict [("error", VStr msg)]), new) ->
  In msg ["no 'input' property found on job data";
          "no 'workflow' property found on job data";
          "Invalid JSON format in 'workflow' data";
          "'workflow' must be a JSON object or JSON-encoded string";
          "Max retries reached while waiting for image generation"] \/
  (exists e, msg = "Error queuing prompt: " ++ exn_str e) \/
  (exists e, msg = "Error waiting for image generation: " ++ exn_str e) \/
  (exists output_images,
      msg = "image does not exist in the specified output folder: /comfyui/output/"
              ++ py_str L output_images).
Proof.
  destruct (handler_stops_at_validation L W job past) as [Hret Hraise].
  pose proof (validate_cases L job past) as Hcases.
  destruct (validate L job past) as [[[ji wf] | v | e] n0] eqn:Hv.
  - inversion Hcases; subst.
    rewrite handler_after_await, (await_history_eq L W job past _ _ Hv). cbv zeta.
    destruct (prompt_id_of L _) as [e | pid].
    + intros [= <- _]. right. left. now exists e.
    + match goal with |- context [poll L W pid ?p] =>
        pose proof (poll_returns_message pid p) as Hpoll;
        destruct (poll L W pid p) as [[h | v | e] n3]
      end; try discriminate.
      * destruct (fetch_output_images L h pid) as [e | oi]; [discriminate |].
        pose proof (deliver_cases L W job ji oi
                      ((n3 ++ log_line ("ComfyUI queued with job ID " ++ py_str L pid)
                           :: EvUrlopen prompt_url (Some (post_data L (VDict workflow)))
                                (urlopen W (probe W past ++ past)%list prompt_url
                                   (Some (post_data L (VDict workflow))))
                           :: probe W past) ++ past)%list) as Hd.
        cbv zeta in Hd.
        destruct (deliver L W job ji oi _) as [[u | v | e] n4];
          destruct Hd as [_ Hd]; try discriminate.
        intros [= Hv' _]. subst v.
        destruct Hd as [[Hmsg _] | Hd].
        -- injection Hmsg as Hmsg. subst msg. right. right. right. now exists oi.
        -- exfalso. apply (envelope_kinds_disjoint _ _ _ _ _ (ex_intro _ msg eq_refl) Hd).
      * intros [= Hv' _]. subst v.
        destruct (Hpoll _ _ eq_refl) as [Hmax | [e Hwait]].
        -- injection Hmax as Hmax. subst msg. left. simpl. tauto.
        -- injection Hwait as Hwait. subst msg. right. right. left. now exists e.
  - rewrite (Hret _ _ eq_refl). intros [= Hv' _]. subst v.
    destruct (validate_returns_message job past _ _ Hv) as [msg' [Heq Hin]].
    injection Heq as Heq. subst msg'. left. simpl in *. tauto.
  - rewrite (Hraise _ _ eq_refl). discriminate.
Qed.

End Taxonomy.

Lemma error_envelopes_are_classified_witness :
  handler scenario_lib lost_file_world job_a []
  = (Normal (VDict [("error",
                     VStr "image does not exist in the specified output folder: /comfyui/output/img1.png")]),
     snd (handler scenario_lib lost_file_world job_a [])) /\
  (In "image does not exist in the specified output folder: /comfyui/output/img1.png"
      ["no 'input' property found on job data";
       "no 'workflow' property found on job data";
       "Invalid JSON format in 'workflow' data";
       "'workflow' must be a JSON object or JSON-encoded string";
       "Max retries reached while waiting for image generation"] \/
   (exists e,
       "image does not exist in the specified output folder: /comfyui/output/img1.png"
       = "Error queuing prompt: " ++ exn_str e) \/
   (exists e,
       "image does not exist in the specified output folder: /comfyui/output/img1.png"
       = "Error waiting for image generation: " ++ exn_str e) \/
   (exists output_images,
       "image does not exist in the specified output folder: /comfyui/output/img1.png"
       = "image does not exist in the specified output folder: /comfyui/output/"
           ++ py_str scenario_lib output_images)).
Proof.
  split; [vm_compute; reflexivity |].
  apply (error_envelopes_are_classified scenario_lib lost_file_world job_a []
           "image does not exist in the specified output folder: /comfyui/output/img1.png"
           (snd (handler scenario_lib lost_file_world job_a []))).
  vm_compute. reflexivity.
Defined.

(** ** Flags, case and padding *)

Lemma lower_char_idempotent (c : ascii) :
  PyStr.lower_char (PyStr.lower_char c) = PyStr.lower_char c.
Proof. destruct c as [[] [] [] [] [] [] [] []]; reflexivity. Qed.

Lemma lower_char_space (c : ascii) :
  PyStr.is_space c = true -> PyStr.lower_char c = c.
Proof. destruct c as [[] [] [] [] [] [] [] []]; intros H; try discriminate H; reflexivity. Qed.

Lemma lower_idempotent (s : string) : PyStr.lower (PyStr.lower s) = PyStr.lower s.
Proof.
  induction s as [|c s IH]; [reflexivity |].
  simpl. now rewrite lower_char_idempotent, IH.
Qed.

Lemma lower_app (a b : string) :
  PyStr.lower (a ++ b) = PyStr.lower a ++ PyStr.lower b.
Proof. induction a as [|c a IH]; [reflexivity |]. simpl. now rewrite IH. Qed.

Lemma lower_all_space (a : string) : all_space a = true -> PyStr.lower a = a.
Proof.
  induction a as [|c a IH]; [reflexivity |].
  simpl. intros H. apply andb_true_iff in H. destruct H as [Hc Ha].
  now rewrite (lower_char_space c Hc), IH.
Qed.

Lemma lstrip_all_space (a b : string) :
  all_space a = true -> PyStr.lstrip (a ++ b) = PyStr.lstrip b.
Proof.
  induction a as [|c a IH]; [reflexivity |].
  simpl. intros H. apply andb_true_iff in H. destruct H as [Hc Ha].
  rewrite Hc. now apply IH.
Qed.

Lemma append_nil_r (s : string) : s ++ EmptyString = s.
Proof. induction s as [|c s IH]; [reflexivity |]. simpl. now rewrite IH. Qed.

Lemma append_assoc (a b c : string) : (a ++ b) ++ c = a ++ (b ++ c).
Proof. induction a as [|x a IH]; [reflexivity |]. simpl. now rewrite IH. Qed.

Lemma rev_onto_spec (s acc : string) :
  PyStr.rev_onto s acc = PyStr.rev s ++ acc.
Proof.
  unfold PyStr.rev. revert acc. induction s as [|c s IH]; intros acc; [reflexivity |].
  simpl. rewrite (IH (String c acc)), (IH (String c EmptyString)).
  now rewrite append_assoc.
Qed.

Lemma rev_app (a b : string) : PyStr.rev (a ++ b) = PyStr.rev b ++ PyStr.rev a.
Proof.
  induction a as [|c a IH].
  - simpl. now rewrite append_nil_r.
  - unfold PyStr.rev in *. simpl.
    rewrite (rev_onto_spec (a ++ b)), (rev_onto_spec a).
    unfold PyStr.rev. rewrite IH. now rewrite append_assoc.
Qed.

Lemma all_space_app (a b : string) :
  all_space (a ++ b) = all_space a && all_space b.
Proof.
  induction a as [|c a IH]; [reflexivity |].
  simpl. now rewrite IH, andb_assoc.
Qed.

Lemma all_space_rev (a : string) : all_space (PyStr.rev a) = all_space a.
Proof.
  induction a as [|c a IH]; [reflexivity |].
  change (String c a) with (String c EmptyString ++ a) at 1.
  rewrite rev_app, all_space_app, IH. simpl.
  now rewrite andb_true_r, andb_comm.
Qed.

Lemma rstrip_all_space (b a : string) :
  all_space a = true -> PyStr.rstrip (b ++ a) = PyStr.rstrip b.
Proof.
  intros Ha. unfold PyStr.rstrip. rewrite rev_app.
  rewrite lstrip_all_space; [reflexivity |]. now rewrite all_space_rev.
Qed.

Lemma lstrip_padded (s a : string) :
  all_space a = true ->
  exists a', all_space a' = true /\ PyStr.lstrip (s ++ a) = PyStr.lstrip s ++ a'.
Proof.
  intros Ha. induction s as [|c s IH].
  - exists EmptyString. split; [reflexivity |].
    simpl. rewrite <- (append_nil_r a). now rewrite lstrip_all_space.
  - simpl. destruct (PyStr.is_space c).
    + exact IH.
    + exists a. split; [exact Ha | reflexivity].
Qed.

Lemma strip_padded (a s b : string) :
  all_space a = true -> all_space b = true ->
  PyStr.strip (a ++ s ++ b) = PyStr.strip s.
Proof.
  intros Ha Hb. unfold PyStr.strip.
  rewrite (lstrip_all_space a _ Ha).
  destruct (lstrip_padded s b Hb) as [b' [Hb' ->]].
  now apply rstrip_all_space.
Qed.

(** X20.  A flag given as a string does not depend on the case of its
    letters nor on white space around it: lower-casing the string, or
    padding it on either side with white space, leaves the answer of
    [job_prop_to_bool] unchanged. *)
Theorem flag_ignores_case_and_padding (job_input : dict) (propname s a b : string) :
  all_space a = true -> all_space b = true ->
  job_prop_to_bool (dict_set propname (VStr (PyStr.lower s)) job_input) propname
  = job_prop_to_bool (dict_set propname (VStr s) job_input) propname /\
  job_prop_to_bool (dict_set propname (VStr (a ++ s ++ b)) job_input) propname
  = job_prop_to_bool (dict_set propname (VStr s) job_input) propname.
Proof.
  intros Ha Hb. unfold job_prop_to_bool, dict_get.
  rewrite !dict_lookup_set_same. split.
  - now rewrite lower_idempotent.
  - rewrite !lower_app, (lower_all_space a Ha), (lower_all_space b Hb).
    now rewrite strip_padded.
Qed.

Lemma flag_ignores_case_and_padding_witness :
  job_prop_to_bool (dict_set "return-b64" (VStr (PyStr.lower "YES")) []) "return-b64"
  = job_prop_to_bool (dict_set "return-b64" (VStr "YES") []) "return-b64" /\
  job_prop_to_bool (dict_set "return-b64" (VStr ("  " ++ "YES" ++ " ")) []) "return-b64"
  = job_prop_to_bool (dict_set "return-b64" (VStr "YES") []) "return-b64".
Proof.
  apply (flag_ignores_case_and_padding [] "return-b64" "YES" "  " " ");
    reflexivity.
Defined.
